(** * Account verification, token and role-gate logic of the marketplace backend

    A shallow embedding of
      - model/user.js and the shop model (schemas, pre-save hooks, getJwtToken,
        comparePassword),
      - the auth middleware (isAuthenticated, isSeller, isAdmin),
      - controller/user.js and controller/shop.js (create, activation, login),
    followed by the properties of the account lifecycle proved about them.

    Conventions.  A JavaScript value that may be [undefined] is an [option];
    [Date.now()] is an integer number of milliseconds ([Z]); the result of
    [Math.random()] is an exact rational ([Q]), IEEE rounding is not modelled.
    Every handler is a function of the request, of the values it draws from
    its environment (clock, random draw, salt, fresh id) and of the collection
    it reads; it returns what it passes to [next] or writes to [res], and the
    collection it leaves behind. *)

From Stdlib Require Import String Ascii List ZArith QArith Qround Bool Lia.
Import ListNotations.

Open Scope string_scope.
Open Scope Z_scope.

(** ** JavaScript helpers *)

Module JS.

(** [!v] for a value that is [undefined] or a string. *)
Definition falsy (v : option string) : bool :=
  match v with
  | None => true
  | Some s => String.eqb s ""
  end.

Definition truthy (v : option string) : bool := negb (falsy v).

(** The string behind a truthy value: what is left of [v] after an
    [if (!v) return ...]. *)
Definition present (v : option string) : option string :=
  match v with
  | Some s => if String.eqb s "" then None else Some s
  | None => None
  end.

(** A request field that was supplied: a non-empty string [s]. *)
Definition supplied (v : option string) (s : string) : Prop :=
  v = Some s /\ s <> "".

(** [a || b] on strings that may be undefined. *)
Definition or_else (a : option string) (b : string) : string :=
  match a with
  | Some s => if String.eqb s "" then b else s
  | None => b
  end.

(** [a !== b] on values that are strings or undefined. *)
Definition strict_neq (a b : option string) : bool :=
  match a, b with
  | Some s, Some t => negb (String.eqb s t)
  | None, None => false
  | _, _ => true
  end.

(** [a < b] where [a] is a stored number or undefined: a comparison with
    [undefined] (NaN) is false. *)
Definition lt_number (a : option Z) (b : Z) : bool :=
  match a with
  | Some x => x <? b
  | None => false
  end.

Definition digitChar (d : Z) : ascii := ascii_of_nat (48 + Z.to_nat d).

Fixpoint decimal (fuel : nat) (n : Z) (acc : string) : string :=
  match fuel with
  | O => acc
  | S f =>
      let acc' := String (digitChar (n mod 10)) acc in
      if n / 10 =? 0 then acc' else decimal f (n / 10) acc'
  end.

(** [Number.prototype.toString] on an integer below 1e21 (no exponent form). *)
Definition toString (n : Z) : string :=
  if n <? 0 then "-" ++ decimal 21 (- n) "" else decimal 21 n "".

(** [s.startsWith(p)]. *)
Definition startsWith (p s : string) : bool := String.prefix p s.

(** [s.split(sep)] for a one-character separator. *)
Fixpoint split (sep : ascii) (s : string) : list string :=
  match s with
  | EmptyString => [EmptyString]
  | String c r =>
      if Ascii.eqb c sep then EmptyString :: split sep r
      else match split sep r with
           | h :: t => String c h :: t
           | [] => [String c EmptyString]
           end
  end.

(** [roles.includes(v)] where [v] may be undefined: an array of strings never
    includes [undefined]. *)
Definition includes (l : list string) (v : option string) : bool :=
  match v with
  | Some s => existsb (String.eqb s) l
  | None => false
  end.

(** [s.includes(c)] for a character [c]. *)
Fixpoint hasChar (c : ascii) (s : string) : bool :=
  match s with
  | EmptyString => false
  | String x r => Ascii.eqb x c || hasChar c r
  end.

Definition lowerChar (c : ascii) : ascii :=
  let n := nat_of_ascii c in
  if ((65 <=? n) && (n <=? 90))%nat then ascii_of_nat (n + 32) else c.

(** [s.toLowerCase()] on ASCII text. *)
Fixpoint toLowerCase (s : string) : string :=
  match s with
  | EmptyString => EmptyString
  | String c r => String (lowerChar c) (toLowerCase r)
  end.

Definition isSpace (c : ascii) : bool :=
  let n := nat_of_ascii c in ((n =? 32) || ((9 <=? n) && (n <=? 13)))%nat.

Fixpoint trimStart (s : string) : string :=
  match s with
  | EmptyString => EmptyString
  | String c r => if isSpace c then trimStart r else s
  end.

Fixpoint trimEnd (s : string) : string :=
  match s with
  | EmptyString => EmptyString
  | String c r =>
      let r' := trimEnd r in
      if isSpace c && String.eqb r' "" then EmptyString else String c r'
  end.

(** [s.trim()] on ASCII text. *)
Definition trim (s : string) : string := trimEnd (trimStart s).

Definition isDigit (c : ascii) : bool :=
  let n := nat_of_ascii c in ((48 <=? n) && (n <=? 57))%nat.

Fixpoint allDigits (s : string) : bool :=
  match s with
  | EmptyString => true
  | String c r => isDigit c && allDigits r
  end.

End JS.

(** ** Libraries and collaborators

    The handlers call jsonwebtoken, bcryptjs, the mail transport and the media
    host.  Each is an interface here; the properties below hold for every
    implementation of it, and are run on a small concrete one. *)

Definition ObjectId := string.

Record JwtError := { errName : string; errMessage : string }.

(** jsonwebtoken.  [jwt_sign id secret expiresIn clock] is
    [jwt.sign({ id }, secret, { expiresIn })] evaluated at [clock];
    [jwt_verify token secret clock] is [jwt.verify(token, secret)] evaluated
    at [clock]: the error it throws, or [decoded.id]. *)
Class JwtLib := {
  jwt_sign : ObjectId -> string -> Z -> Z -> string;
  jwt_verify : string -> string -> Z -> JwtError + ObjectId
}.

(** What the library promises of a token it signed: verified with the same
    secret at a clock whose second is before [iat + expiresIn], it decodes
    to the payload signed. *)
Definition jwt_sound `{JwtLib} : Prop :=
  forall id secret expiresIn clock later,
    later / 1000 < clock / 1000 + expiresIn ->
    jwt_verify (jwt_sign id secret expiresIn clock) secret later = inr id.

(** bcryptjs on strings: the hash of a string under a salt, and the
    comparison of a string with a hash. *)
Class BcryptLib := {
  bcrypt_hashString : string -> string -> string;
  bcrypt_compareString : string -> string -> bool
}.

(** bcryptjs accepts a password hashed from it. *)
Definition bcrypt_sound `{BcryptLib} : Prop :=
  forall s salt, bcrypt_compareString s (bcrypt_hashString s salt) = true.

(** [await bcrypt.hash(s, 10)]: rejects when [s] is not a string. *)
Definition bcrypt_hash `{BcryptLib} (s : option string) (salt : string)
  : string + string :=
  match s with
  | Some p => inr (bcrypt_hashString p salt)
  | None => inl "Illegal arguments: undefined, number"
  end.

(** [await bcrypt.compare(s, hash)]: rejects unless both are strings. *)
Definition bcrypt_compare `{BcryptLib} (s hash : option string)
  : string + bool :=
  match s, hash with
  | Some p, Some h => inr (bcrypt_compareString p h)
  | Some _, None => inl "Illegal arguments: string, undefined"
  | None, Some _ => inl "Illegal arguments: undefined, string"
  | None, None => inl "Illegal arguments: undefined, undefined"
  end.

Record Avatar := { public_id : string; url : string }.

Record MailOptions := {
  mail_email : option string;
  mail_subject : string;
  mail_message : string
}.

(** The mail transport, the media host and the e-mail validator.
    Modelled from the spec: utils/sendMail is the Mail Transport,
    [send({recipient, subject, body}) -> success | DeliveryFailed]; here
    [None] is success and [Some m] the rejection with [Error(m)]. *)
Class Services := {
  sendMail : MailOptions -> option string;
  cloudinary_upload : string -> string -> string + Avatar;
  validator_isEmail : string -> bool
}.

(** [process.env]. *)
Class Config := {
  JWT_SECRET_KEY : string;
  JWT_EXPIRES : Z
}.

(** What one request draws from its environment: [Date.now()],
    [Math.random()], the salt bcrypt generates and the id Mongoose gives a
    new document. *)
Record Ambient := {
  now : Z;
  random : Q;
  salt : string;
  freshId : ObjectId
}.

(** ** Errors and responses *)

(** Modelled from the spec: utils/ErrorHandler, the uniform error envelope
    with a message and a status code. *)
Record ErrorHandler := { message : string; statusCode : Z }.

Inductive Body :=
| Message (m : string)
| Session (account : ObjectId) (token : string).

Record Response := {
  status : Z;
  cookies : list (string * string);
  body : Body
}.

(** How a middleware or handler ends: [next(new ErrorHandler(..))], or the
    value it produced ([res.status(..).json(..)], or what it attached to the
    request before [next()]). *)
Inductive Reply (A : Type) : Type :=
| NextError (e : ErrorHandler)
| Done (a : A).

Arguments NextError {A} e.
Arguments Done {A} a.

(** What the handlers did to the outside world, in order. *)
Inductive Effect :=
| MailAttempt (m : MailOptions) (delivered : bool)
| Created (id : ObjectId).

(** [`${v}`] in a template literal. *)
Definition interpolate (v : option string) : string :=
  match v with
  | Some s => s
  | None => "undefined"
  end.

(** [Math.floor(100000 + Math.random() * 900000).toString()]. *)
Definition generateOtp (r : Q) : string :=
  JS.toString (Qfloor (100000 + r * 900000)).

(** [Date.now() + 10 * 60 * 1000]. *)
Definition otpExpiryAt (clock : Z) : Z := clock + 10 * 60 * 1000.

(** ** Mongoose middleware

    The contract of a pre-save hook declared with a [next] parameter
    (Mongoose 5 to 8): the save goes on the first time the hook calls [next];
    when the hook is an async function that has not called [next], it goes on
    when the promise of the hook settles, and a rejection fails the save.
    Only the first of these counts: statements the hook runs after its call
    of [next], and what its promise settles to then, do not reach the write.
    [handedOn] is the document as it was when [next] was called, [settled]
    what the promise of the hook settled to. *)
Record HookRun (D : Type) := {
  handedOn : option D;
  settled : string + D
}.

Arguments handedOn {D} h.
Arguments settled {D} h.

(** The document the save goes on with, or the error it fails with. *)
Definition hookOutcome {D : Type} (h : HookRun D) : string + D :=
  match handedOn h with
  | Some d => inr d
  | None => settled h
  end.

(** ** Collections

    A collection is the list of its documents in insertion order; [_id] is
    its key. *)

Module Mongo.

Section Collection.
Context {A : Type} (key : A -> ObjectId).

(** [updateOne({ _id: id }, ...)]: the first document with that id. *)
Fixpoint updateOne (id : ObjectId) (f : A -> A) (db : list A) : list A :=
  match db with
  | [] => []
  | u :: rest =>
      if String.eqb (key u) id then f u :: rest
      else u :: updateOne id f rest
  end.

(** Ids are unique in a collection. *)
Definition uniqueIds (db : list A) : Prop := NoDup (map key db).

End Collection.

End Mongo.

(** ** model/user.js *)

Module User.

(** The paths of [userSchema] the account lifecycle reads or writes.  The
    phone number, addresses, approval flags, creation date and reset token
    are carried by no handler modelled here and are left out. *)
Record t := {
  _id : ObjectId;
  name : string;
  email : string;
  password : option string;
  role : string;
  avatar : option Avatar;
  verificationOtp : option string;
  verificationOtpExpiry : option Z;
  isVerified : bool
}.

Definition roleEnum : list string :=
  ["user"; "seller"; "instructor"; "serviceProvider"; "admin"].

(** A Mongoose document: the values loaded or set, whether it is new, and
    the paths modified since it was loaded. *)
Record Document := {
  doc : t;
  isNew : bool;
  modifiedPaths : list string
}.

Definition isModified (path : string) (d : Document) : bool :=
  existsb (String.eqb path) (modifiedPaths d).

Definition markModified (path : string) (d : Document) : Document :=
  {| doc := doc d; isNew := isNew d; modifiedPaths := path :: modifiedPaths d |}.

Definition with_password (v : option string) (u : t) : t :=
  {| _id := _id u; name := name u; email := email u; password := v;
     role := role u; avatar := avatar u;
     verificationOtp := verificationOtp u;
     verificationOtpExpiry := verificationOtpExpiry u;
     isVerified := isVerified u |}.

Definition with_verificationOtp (v : option string) (u : t) : t :=
  {| _id := _id u; name := name u; email := email u; password := password u;
     role := role u; avatar := avatar u;
     verificationOtp := v;
     verificationOtpExpiry := verificationOtpExpiry u;
     isVerified := isVerified u |}.

Definition with_verificationOtpExpiry (v : option Z) (u : t) : t :=
  {| _id := _id u; name := name u; email := email u; password := password u;
     role := role u; avatar := avatar u;
     verificationOtp := verificationOtp u;
     verificationOtpExpiry := v;
     isVerified := isVerified u |}.

Definition with_isVerified (v : bool) (u : t) : t :=
  {| _id := _id u; name := name u; email := email u; password := password u;
     role := role u; avatar := avatar u;
     verificationOtp := verificationOtp u;
     verificationOtpExpiry := verificationOtpExpiry u;
     isVerified := v |}.

(** [this.<path> = v]: the value is set and the path marked modified.
    (Mongoose leaves the mark off when the value is the one the path has;
    the write to the collection is the same either way.) *)
Definition set_password (v : option string) (d : Document) : Document :=
  markModified "password"
    {| doc := with_password v (doc d); isNew := isNew d;
       modifiedPaths := modifiedPaths d |}.

Definition set_verificationOtp (v : option string) (d : Document) : Document :=
  markModified "verificationOtp"
    {| doc := with_verificationOtp v (doc d); isNew := isNew d;
       modifiedPaths := modifiedPaths d |}.

Definition set_verificationOtpExpiry (v : option Z) (d : Document) : Document :=
  markModified "verificationOtpExpiry"
    {| doc := with_verificationOtpExpiry v (doc d); isNew := isNew d;
       modifiedPaths := modifiedPaths d |}.

Definition set_isVerified (v : bool) (d : Document) : Document :=
  markModified "isVerified"
    {| doc := with_isVerified v (doc d); isNew := isNew d;
       modifiedPaths := modifiedPaths d |}.

(** The pending-otp state of the specification: not verified, with a live
    OTP pair. *)
Definition pendingOtp (u : t) (code : string) (expiry : Z) : Prop :=
  isVerified u = false
  /\ verificationOtp u = Some code
  /\ verificationOtpExpiry u = Some expiry.

(** An account as a successful activation leaves it stored: verified, the
    OTP pair cleared, every other path as it was. *)
Definition activated (u : t) : t :=
  with_isVerified true
    (with_verificationOtp None (with_verificationOtpExpiry None u)).

(** Two states of one account that differ at most in the verification
    paths. *)
Definition sameAccount (u u' : t) : Prop :=
  _id u' = _id u /\ name u' = name u /\ email u' = email u
  /\ password u' = password u /\ role u' = role u /\ avatar u' = avatar u.

(** The password path is [select: false]: a query returns it only when it
    asks for ["+password"]. *)
Definition loaded (withPassword : bool) (u : t) : Document :=
  {| doc := if withPassword then u else with_password None u;
     isNew := false; modifiedPaths := [] |}.

(** The stored document a filter [{ email: e }] selects: the first whose
    e-mail is [e], which the schema lower-cases as it does the stored one. *)
Definition byEmail (e : string) (db : list t) : option t :=
  find (fun u => String.eqb (email u) (JS.toLowerCase e)) db.

(** [User.findOne({ email })], with [.select("+password")] or without.  No
    stored document has an undefined e-mail. *)
Definition findOne (withPassword : bool) (e : option string) (db : list t)
  : option Document :=
  match e with
  | Some e => option_map (loaded withPassword) (byEmail e db)
  | None => None
  end.

(** [User.findById(id)]. *)
Definition findById (id : ObjectId) (db : list t) : option Document :=
  option_map (loaded false) (find (fun u => String.eqb (_id u) id) db).

(** The update a save of a loaded document sends: the modified paths. *)
Definition applyModified (d : Document) (stored : t) : t :=
  {| _id := _id stored;
     name := if isModified "name" d then name (doc d) else name stored;
     email := if isModified "email" d then email (doc d) else email stored;
     password :=
       if isModified "password" d then password (doc d) else password stored;
     role := if isModified "role" d then role (doc d) else role stored;
     avatar := if isModified "avatar" d then avatar (doc d) else avatar stored;
     verificationOtp :=
       if isModified "verificationOtp" d then verificationOtp (doc d)
       else verificationOtp stored;
     verificationOtpExpiry :=
       if isModified "verificationOtpExpiry" d then verificationOtpExpiry (doc d)
       else verificationOtpExpiry stored;
     isVerified :=
       if isModified "isVerified" d then isVerified (doc d)
       else isVerified stored |}.

(** The write of a save: an insert for a new document, otherwise an update
    of the stored document with its id. *)
Definition persist (d : Document) (db : list t) : list t :=
  if isNew d then db ++ [doc d]
  else Mongo.updateOne _id (_id (doc d)) (applyModified d) db.

Section Methods.
Context {bcryptLib : BcryptLib} {jwtLib : JwtLib} {services : Services}
  {config : Config}.

(** [userSchema.pre("save", async function (next) { ... })]. *)
Definition preSave (a : Ambient) (this : Document) : HookRun Document :=
  if negb (isModified "password" this) then
    (* return next(); *)
    {| handedOn := Some this; settled := inr this |}
  else
    match bcrypt_hash (password (doc this)) (salt a) with
    | inl err => {| handedOn := None; settled := inl err |}
    | inr h =>
        let this := set_password (Some h) this in
        (* next(); *)
        {| handedOn := Some this; settled := inr this |}
    end.

(** [document.save()]: the hook, then the write; the document comes back
    clean. *)
Definition save (a : Ambient) (d : Document) (db : list t)
  : string + (Document * list t) :=
  match hookOutcome (preSave a d) with
  | inl err => inl err
  | inr d' =>
      inr ({| doc := doc d'; isNew := false; modifiedPaths := [] |},
           persist d' db)
  end.

(** [userSchema.methods.getJwtToken]. *)
Definition getJwtToken (a : Ambient) (this : Document) : string :=
  jwt_sign (_id (doc this)) JWT_SECRET_KEY JWT_EXPIRES (now a).

(** [userSchema.methods.comparePassword]. *)
Definition comparePassword (this : Document) (enteredPassword : option string)
  : string + bool :=
  bcrypt_compare enteredPassword (password (doc this)).

(** The plain object a handler passes to [User.create]. *)
Record Fields := {
  f_name : option string;
  f_email : option string;
  f_password : option string;
  f_avatar : option Avatar;
  f_role : string;
  f_verificationOtp : string;
  f_verificationOtpExpiry : Z;
  f_isVerified : bool
}.

(** The validators of the schema on the paths kept: [required] on name,
    e-mail and password, [validator.isEmail], [minLength: 6], the role
    [enum]. *)
Definition validate (f : Fields) : bool :=
  JS.truthy (f_name f)
  && match f_email f with
     | Some e => negb (String.eqb e "") && validator_isEmail (JS.toLowerCase e)
     | None => false
     end
  && match f_password f with
     | Some p => negb (String.eqb p "") && (6 <=? String.length p)%nat
     | None => false
     end
  && existsb (String.eqb (f_role f)) roleEnum.

Definition allPaths : list string :=
  ["name"; "email"; "password"; "role"; "avatar"; "verificationOtp";
   "verificationOtpExpiry"; "isVerified"].

(** [User.create(fields)]: a new document with every given path set,
    validated, then saved.  (The library's message lists the failing paths
    after this prefix.) *)
Definition create (a : Ambient) (f : Fields) (db : list t)
  : string + (Document * list t) :=
  match f_name f, f_email f, f_password f with
  | Some n, Some e, Some p =>
      if validate f then
        save a
          {| doc := {| _id := freshId a; name := n;
                       email := JS.toLowerCase e; password := Some p;
                       role := f_role f; avatar := f_avatar f;
                       verificationOtp := Some (f_verificationOtp f);
                       verificationOtpExpiry := Some (f_verificationOtpExpiry f);
                       isVerified := f_isVerified f |};
             isNew := true; modifiedPaths := allPaths |}
          db
      else inl "User validation failed"
  | _, _, _ => inl "User validation failed"
  end.

End Methods.

End User.

(** ** The shop model *)

Module Shop.

(** The paths of [shopSchema] the account lifecycle reads or writes; the
    description, phone number, balance, transactions, withdraw method,
    approval flag, creation date and reset token are left out. *)
Record t := {
  _id : ObjectId;
  name : string;
  email : string;
  password : option string;
  address : string;
  zipCode : string;
  role : string;
  avatar : Avatar;
  verificationOtp : option string;
  verificationOtpExpiry : option Z;
  isVerified : bool
}.

Record Document := {
  doc : t;
  isNew : bool;
  modifiedPaths : list string;
  (** [req.seller.token = token]: a property the middleware puts on the
      document object; it is no path of the schema. *)
  token : option string
}.

Definition isModified (path : string) (d : Document) : bool :=
  existsb (String.eqb path) (modifiedPaths d).

Definition markModified (path : string) (d : Document) : Document :=
  {| doc := doc d; isNew := isNew d; modifiedPaths := path :: modifiedPaths d;
     token := token d |}.

Definition with_password (v : option string) (u : t) : t :=
  {| _id := _id u; name := name u; email := email u; password := v;
     address := address u; zipCode := zipCode u;
     role := role u; avatar := avatar u;
     verificationOtp := verificationOtp u;
     verificationOtpExpiry := verificationOtpExpiry u;
     isVerified := isVerified u |}.

Definition with_verificationOtp (v : option string) (u : t) : t :=
  {| _id := _id u; name := name u; email := email u; password := password u;
     address := address u; zipCode := zipCode u;
     role := role u; avatar := avatar u;
     verificationOtp := v;
     verificationOtpExpiry := verificationOtpExpiry u;
     isVerified := isVerified u |}.

Definition with_verificationOtpExpiry (v : option Z) (u : t) : t :=
  {| _id := _id u; name := name u; email := email u; password := password u;
     address := address u; zipCode := zipCode u;
     role := role u; avatar := avatar u;
     verificationOtp := verificationOtp u;
     verificationOtpExpiry := v;
     isVerified := isVerified u |}.

Definition with_isVerified (v : bool) (u : t) : t :=
  {| _id := _id u; name := name u; email := email u; password := password u;
     address := address u; zipCode := zipCode u;
     role := role u; avatar := avatar u;
     verificationOtp := verificationOtp u;
     verificationOtpExpiry := verificationOtpExpiry u;
     isVerified := v |}.

Definition set_doc (u : t) (d : Document) : Document :=
  {| doc := u; isNew := isNew d; modifiedPaths := modifiedPaths d;
     token := token d |}.

(** [this.<path> = v]: the value is set and the path marked modified.
    (Mongoose leaves the mark off when the value is the one the path has;
    the write to the collection is the same either way.) *)
Definition set_password (v : option string) (d : Document) : Document :=
  markModified "password" (set_doc (with_password v (doc d)) d).

Definition set_verificationOtp (v : option string) (d : Document) : Document :=
  markModified "verificationOtp" (set_doc (with_verificationOtp v (doc d)) d).

Definition set_verificationOtpExpiry (v : option Z) (d : Document) : Document :=
  markModified "verificationOtpExpiry"
    (set_doc (with_verificationOtpExpiry v (doc d)) d).

Definition set_isVerified (v : bool) (d : Document) : Document :=
  markModified "isVerified" (set_doc (with_isVerified v (doc d)) d).

(** [req.seller.token = token]. *)
Definition set_token (v : string) (d : Document) : Document :=
  {| doc := doc d; isNew := isNew d; modifiedPaths := modifiedPaths d;
     token := Some v |}.

(** The pending-otp state of the specification: not verified, with a live
    OTP pair. *)
Definition pendingOtp (u : t) (code : string) (expiry : Z) : Prop :=
  isVerified u = false
  /\ verificationOtp u = Some code
  /\ verificationOtpExpiry u = Some expiry.

(** An account as a successful activation leaves it stored: verified, the
    OTP pair cleared, every other path as it was. *)
Definition activated (u : t) : t :=
  with_isVerified true
    (with_verificationOtp None (with_verificationOtpExpiry None u)).

(** Two states of one account that differ at most in the verification
    paths. *)
Definition sameAccount (u u' : t) : Prop :=
  _id u' = _id u /\ name u' = name u /\ email u' = email u
  /\ password u' = password u /\ address u' = address u
  /\ zipCode u' = zipCode u /\ role u' = role u /\ avatar u' = avatar u.

(** The password path is [select: false]: a query returns it only when it
    asks for ["+password"]. *)
Definition loaded (withPassword : bool) (u : t) : Document :=
  {| doc := if withPassword then u else with_password None u;
     isNew := false; modifiedPaths := []; token := None |}.

(** The stored document a filter [{ email: e }] selects. *)
Definition byEmail (e : string) (db : list t) : option t :=
  find (fun u => String.eqb (email u) (JS.toLowerCase e)) db.

(** [Shop.findOne({ email })], with [.select("+password")] or without. *)
Definition findOne (withPassword : bool) (e : option string) (db : list t)
  : option Document :=
  match e with
  | Some e => option_map (loaded withPassword) (byEmail e db)
  | None => None
  end.

(** [Shop.findById(id)]. *)
Definition findById (id : ObjectId) (db : list t) : option Document :=
  option_map (loaded false) (find (fun u => String.eqb (_id u) id) db).

(** The update a save of a loaded document sends: the modified paths. *)
Definition applyModified (d : Document) (stored : t) : t :=
  {| _id := _id stored;
     name := if isModified "name" d then name (doc d) else name stored;
     email := if isModified "email" d then email (doc d) else email stored;
     password :=
       if isModified "password" d then password (doc d) else password stored;
     address :=
       if isModified "address" d then address (doc d) else address stored;
     zipCode :=
       if isModified "zipCode" d then zipCode (doc d) else zipCode stored;
     role := if isModified "role" d then role (doc d) else role stored;
     avatar := if isModified "avatar" d then avatar (doc d) else avatar stored;
     verificationOtp :=
       if isModified "verificationOtp" d then verificationOtp (doc d)
       else verificationOtp stored;
     verificationOtpExpiry :=
       if isModified "verificationOtpExpiry" d then verificationOtpExpiry (doc d)
       else verificationOtpExpiry stored;
     isVerified :=
       if isModified "isVerified" d then isVerified (doc d)
       else isVerified stored |}.

(** The write of a save: an insert for a new document, otherwise an update
    of the stored document with its id. *)
Definition persist (d : Document) (db : list t) : list t :=
  if isNew d then db ++ [doc d]
  else Mongo.updateOne _id (_id (doc d)) (applyModified d) db.

Section Methods.
Context {bcryptLib : BcryptLib} {jwtLib : JwtLib} {services : Services}
  {config : Config}.

(** [shopSchema.pre("save", async function (next) { ... })]: the branch
    for an unmodified password calls [next] and does not return, so the
    hashing statement runs on every save.  It runs after the save was
    handed on when the password is unmodified, and before it otherwise. *)
Definition preSave (a : Ambient) (this : Document) : HookRun Document :=
  let handed :=
    if negb (isModified "password" this) then Some this (* next(); *)
    else None in
  match bcrypt_hash (password (doc this)) (salt a) with
  | inl err => {| handedOn := handed; settled := inl err |}
  | inr h =>
      {| handedOn := handed; settled := inr (set_password (Some h) this) |}
  end.

(** [document.save()]: the hook, then the write; the document comes back
    clean. *)
Definition save (a : Ambient) (d : Document) (db : list t)
  : string + (Document * list t) :=
  match hookOutcome (preSave a d) with
  | inl err => inl err
  | inr d' =>
      inr ({| doc := doc d'; isNew := false; modifiedPaths := [];
              token := token d' |},
           persist d' db)
  end.

(** [shopSchema.methods.getJwtToken]. *)
Definition getJwtToken (a : Ambient) (this : Document) : string :=
  jwt_sign (_id (doc this)) JWT_SECRET_KEY JWT_EXPIRES (now a).

(** [shopSchema.methods.comparePassword]. *)
Definition comparePassword (this : Document) (enteredPassword : option string)
  : string + bool :=
  bcrypt_compare enteredPassword (password (doc this)).

(** The plain object a handler passes to [Shop.create]. *)
Record Fields := {
  f_name : option string;
  f_email : option string;
  f_password : option string;
  f_address : option string;
  f_zipCode : option string;
  f_avatar : Avatar;
  f_role : string;
  f_verificationOtp : string;
  f_verificationOtpExpiry : Z;
  f_isVerified : bool
}.

(** The validators of the schema on the paths kept: [required] on name
    (trimmed), e-mail, password, address, zip code and avatar url,
    [validator.isEmail], [minLength: 6]. *)
Definition validate (f : Fields) : bool :=
  match f_name f with
  | Some n => negb (String.eqb (JS.trim n) "")
  | None => false
  end
  && match f_email f with
     | Some e => negb (String.eqb e "") && validator_isEmail (JS.toLowerCase e)
     | None => false
     end
  && match f_password f with
     | Some p => negb (String.eqb p "") && (6 <=? String.length p)%nat
     | None => false
     end
  && JS.truthy (f_address f)
  && JS.truthy (f_zipCode f)
  && negb (String.eqb (url (f_avatar f)) "").

Definition allPaths : list string :=
  ["name"; "email"; "password"; "address"; "zipCode"; "role"; "avatar";
   "verificationOtp"; "verificationOtpExpiry"; "isVerified"].

(** [Shop.create(fields)]: a new document with every given path set,
    validated, then saved.  (The library's message lists the failing paths
    after this prefix.) *)
Definition create (a : Ambient) (f : Fields) (db : list t)
  : string + (Document * list t) :=
  match f_name f, f_email f, f_password f, f_address f, f_zipCode f with
  | Some n, Some e, Some p, Some ad, Some z =>
      if validate f then
        save a
          {| doc := {| _id := freshId a; name := JS.trim n;
                       email := JS.toLowerCase e; password := Some p;
                       address := ad; zipCode := z;
                       role := f_role f; avatar := f_avatar f;
                       verificationOtp := Some (f_verificationOtp f);
                       verificationOtpExpiry := Some (f_verificationOtpExpiry f);
                       isVerified := f_isVerified f |};
             isNew := true; modifiedPaths := allPaths; token := None |}
          db
      else inl "Shop validation failed"
  | _, _, _, _, _ => inl "Shop validation failed"
  end.

End Methods.

End Shop.

(** ** The auth middleware *)

Module Auth.

Record Request := {
  cookies_token : option string;
  cookies_seller_token : option string;
  headers_authorization : option string;
  (** [req.user], as an earlier middleware left it. *)
  req_user : option User.Document
}.

Section Middleware.
Context {bcryptLib : BcryptLib} {jwtLib : JwtLib} {services : Services}
  {config : Config}.

(** [exports.isAuthenticated]: on success [req.user] is the value. *)
Definition isAuthenticated (a : Ambient) (req : Request) (users : list User.t)
  : Reply User.Document :=
  match JS.present (cookies_token req) with
  | None =>
      NextError {| message := "Please login to continue"; statusCode := 401 |}
  | Some token =>
      match jwt_verify token JWT_SECRET_KEY (now a) with
      | inl _ =>
          NextError {| message := "Invalid or expired token";
                       statusCode := 401 |}
      | inr id =>
          match User.findById id users with
          | None =>
              NextError {| message := "User not found"; statusCode := 404 |}
          | Some user => Done user
          end
      end
  end.

(** The token [isSeller] goes on with: the cookie, or the second piece of a
    [Bearer ] authorization header when the cookie is falsy. *)
Definition sellerToken (req : Request) : option string :=
  let token := cookies_seller_token req in
  match headers_authorization req with
  | Some h =>
      if JS.falsy token && JS.startsWith "Bearer " h
      then nth_error (JS.split " "%char h) 1
      else token
  | None => token
  end.

(** [exports.isSeller]: on success [req.seller] is the value. *)
Definition isSeller (a : Ambient) (req : Request) (shops : list Shop.t)
  : Reply Shop.Document :=
  match JS.present (sellerToken req) with
  | None =>
      NextError {| message := "Please login as a seller to continue";
                   statusCode := 401 |}
  | Some token =>
      match jwt_verify token JWT_SECRET_KEY (now a) with
      | inl _ =>
          NextError {| message := "Invalid or expired seller token";
                       statusCode := 401 |}
      | inr id =>
          match Shop.findById id shops with
          | None =>
              NextError {| message := "Seller not found"; statusCode := 404 |}
          | Some seller =>
              if negb (Shop.isVerified (Shop.doc seller)) then
                NextError {| message := "Please verify your shop account";
                             statusCode := 403 |}
              else Done (Shop.set_token token seller)
          end
      end
  end.

(** [exports.isAdmin = (...roles) => (req, res, next) => ...]. *)
Definition isAdmin (roles : list string) (req : Request) : Reply unit :=
  let role := option_map (fun u => User.role (User.doc u)) (req_user req) in
  if negb (JS.includes roles role) then
    NextError
      {| message :=
           JS.or_else role "User" ++ " is not allowed to access this resource!";
         statusCode := 403 |}
  else Done tt.

End Middleware.

End Auth.

(** ** controller/user.js *)

Module UserController.

Record CreateUserBody := {
  c_name : option string;
  c_email : option string;
  c_password : option string;
  c_avatar : option string;
  c_role : option string
}.

Record ActivationBody := {
  a_email : option string;
  a_otp : option string
}.

Record LoginBody := {
  l_email : option string;
  l_password : option string
}.

Section Handlers.
Context {bcryptLib : BcryptLib} {jwtLib : JwtLib} {services : Services}
  {config : Config}.

(** Modelled from the spec: utils/jwtToken ([sendToken]) is not among the
    sources; the spec has the handler mint a Bearer Token via the Token
    Service and return it, setting the end-user session cookie [token]. *)
Definition sendToken (a : Ambient) (user : User.Document) (code : Z)
  : Reply Response :=
  let token := User.getJwtToken a user in
  Done {| status := code; cookies := [("token", token)];
          body := Session (User._id (User.doc user)) token |}.

(** [router.post("/create-user", ...)].  The express-validator chains of
    the route only record their findings, which the handler never reads. *)
Definition createUser (a : Ambient) (req : CreateUserBody) (db : list User.t)
  : Reply Response * list User.t * list Effect :=
  match User.findOne false (c_email req) db with
  | Some _ =>
      (NextError {| message := "User already exists"; statusCode := 400 |},
       db, [])
  | None =>
      match (match JS.present (c_avatar req) with
             | Some image =>
                 match cloudinary_upload image "avatars" with
                 | inl err => inl err
                 | inr myCloud => inr (Some myCloud)
                 end
             | None => inr None
             end) with
      | inl err =>
          (NextError {| message := err; statusCode := 400 |}, db, [])
      | inr avatarData =>
          let otp := generateOtp (random a) in
          let otpExpiry := otpExpiryAt (now a) in
          let user :=
            {| User.f_name := c_name req;
               User.f_email := c_email req;
               User.f_password := c_password req;
               User.f_avatar := avatarData;
               User.f_role := JS.or_else (c_role req) "user";
               User.f_verificationOtp := otp;
               User.f_verificationOtpExpiry := otpExpiry;
               User.f_isVerified := false |} in
          let mail :=
            {| mail_email := c_email req;
               mail_subject := "Activate your account";
               mail_message :=
                 "Hello " ++ interpolate (c_name req)
                 ++ ", your OTP to activate your account is " ++ otp
                 ++ ". It expires in 10 minutes." |} in
          match sendMail mail with
          | Some err =>
              (NextError {| message := err; statusCode := 500 |}, db,
               [MailAttempt mail false])
          | None =>
              match User.create a user db with
              | inl err =>
                  (NextError {| message := err; statusCode := 500 |}, db,
                   [MailAttempt mail true])
              | inr (u, db') =>
                  (Done {| status := 201; cookies := [];
                           body :=
                             Message
                               ("Please check your email ("
                                ++ interpolate (c_email req)
                                ++ ") to activate your account with the OTP!")
                        |},
                   db',
                   [MailAttempt mail true; Created (User._id (User.doc u))])
              end
          end
      end
  end.

(** [router.post("/activation", ...)]. *)
Definition activation (a : Ambient) (req : ActivationBody) (db : list User.t)
  : Reply Response * list User.t :=
  if JS.falsy (a_email req) || JS.falsy (a_otp req) then
    (NextError {| message := "Email and OTP are required"; statusCode := 400 |},
     db)
  else
    match User.findOne false (a_email req) db with
    | None =>
        (NextError {| message := "User not found"; statusCode := 400 |}, db)
    | Some user =>
        if User.isVerified (User.doc user) then
          (NextError {| message := "User already verified";
                        statusCode := 400 |}, db)
        else if JS.strict_neq (User.verificationOtp (User.doc user)) (a_otp req)
                || JS.lt_number (User.verificationOtpExpiry (User.doc user))
                     (now a)
        then
          (NextError {| message := "Invalid or expired OTP";
                        statusCode := 400 |}, db)
        else
          let user := User.set_isVerified true user in
          let user := User.set_verificationOtp None user in
          let user := User.set_verificationOtpExpiry None user in
          match User.save a user db with
          | inl err =>
              (NextError {| message := err; statusCode := 500 |}, db)
          | inr (user, db') => (sendToken a user 201, db')
          end
    end.

(** [router.post("/login-user", ...)]; it writes nothing. *)
Definition loginUser (a : Ambient) (req : LoginBody) (db : list User.t)
  : Reply Response :=
  if JS.falsy (l_email req) || JS.falsy (l_password req) then
    NextError {| message := "Please provide all fields!"; statusCode := 400 |}
  else
    match User.findOne true (l_email req) db with
    | None =>
        NextError {| message := "User doesn't exist!"; statusCode := 400 |}
    | Some user =>
        if negb (User.isVerified (User.doc user)) then
          NextError {| message := "Please verify your account first!";
                       statusCode := 400 |}
        else
          match User.comparePassword user (l_password req) with
          | inl err => NextError {| message := err; statusCode := 500 |}
          | inr isPasswordValid =>
              if negb isPasswordValid then
                NextError {| message := "Invalid credentials";
                             statusCode := 400 |}
              else sendToken a user 201
          end
    end.

End Handlers.

End UserController.

(** ** controller/shop.js *)

Module ShopController.

Record CreateShopBody := {
  c_name : option string;
  c_email : option string;
  c_password : option string;
  c_avatar : option Avatar;
  c_address : option string;
  c_zipCode : option string
}.

Record ActivationBody := {
  a_email : option string;
  a_otp : option string
}.

Record LoginBody := {
  l_email : option string;
  l_password : option string
}.

Section Handlers.
Context {bcryptLib : BcryptLib} {jwtLib : JwtLib} {services : Services}
  {config : Config}.

(** Modelled from the spec: utils/shopToken ([sendShopToken]) is not among
    the sources; the spec has the handler return the Bearer Token it minted
    and set the shop session cookie [seller_token]. *)
Definition sendShopToken (shop : Shop.Document) (code : Z) (token : string)
  : Reply Response :=
  Done {| status := code; cookies := [("seller_token", token)];
          body := Session (Shop._id (Shop.doc shop)) token |}.

(** [router.post("/create-shop", ...)]. *)
Definition createShop (a : Ambient) (req : CreateShopBody) (db : list Shop.t)
  : Reply Response * list Shop.t * list Effect :=
  match Shop.findOne false (c_email req) db with
  | Some _ =>
      (NextError {| message := "Shop with this email already exists";
                    statusCode := 400 |}, db, [])
  | None =>
      let shop :=
        {| Shop.f_name := c_name req;
           Shop.f_email := c_email req;
           Shop.f_password := c_password req;
           Shop.f_address := c_address req;
           Shop.f_zipCode := c_zipCode req;
           Shop.f_avatar :=
             match c_avatar req with
             | Some av => av
             | None => {| public_id := ""; url := "" |}
             end;
           Shop.f_role := "Seller";
           Shop.f_verificationOtp := generateOtp (random a);
           Shop.f_verificationOtpExpiry := otpExpiryAt (now a);
           Shop.f_isVerified := false |} in
      let mail :=
        {| mail_email := Shop.f_email shop;
           mail_subject := "Activate your shop account";
           mail_message :=
             "Hello " ++ interpolate (Shop.f_name shop)
             ++ ", your OTP to activate your shop account is "
             ++ Shop.f_verificationOtp shop
             ++ ". It expires in 10 minutes." |} in
      match sendMail mail with
      | Some err =>
          (NextError {| message := err; statusCode := 500 |}, db,
           [MailAttempt mail false])
      | None =>
          match Shop.create a shop db with
          | inl err =>
              (NextError {| message := err; statusCode := 500 |}, db,
               [MailAttempt mail true])
          | inr (s, db') =>
              (Done {| status := 201; cookies := [];
                       body :=
                         Message
                           ("Please check your email ("
                            ++ interpolate (Shop.f_email shop)
                            ++ ") to activate your shop account with the OTP!")
                    |},
               db',
               [MailAttempt mail true; Created (Shop._id (Shop.doc s))])
          end
      end
  end.

(** [router.post("/activation", ...)]. *)
Definition activation (a : Ambient) (req : ActivationBody) (db : list Shop.t)
  : Reply Response * list Shop.t :=
  if JS.falsy (a_email req) || JS.falsy (a_otp req) then
    (NextError {| message := "Email and OTP are required"; statusCode := 400 |},
     db)
  else
    match Shop.findOne false (a_email req) db with
    | None =>
        (NextError {| message := "Shop not found"; statusCode := 400 |}, db)
    | Some shop =>
        if Shop.isVerified (Shop.doc shop) then
          (NextError {| message := "Shop already verified";
                        statusCode := 400 |}, db)
        else if JS.strict_neq (Shop.verificationOtp (Shop.doc shop)) (a_otp req)
                || JS.lt_number (Shop.verificationOtpExpiry (Shop.doc shop))
                     (now a)
        then
          (NextError {| message := "Invalid or expired OTP";
                        statusCode := 400 |}, db)
        else
          let shop := Shop.set_isVerified true shop in
          let shop := Shop.set_verificationOtp None shop in
          let shop := Shop.set_verificationOtpExpiry None shop in
          match Shop.save a shop db with
          | inl err =>
              (NextError {| message := err; statusCode := 500 |}, db)
          | inr (shop, db') =>
              let token := Shop.getJwtToken a shop in
              (sendShopToken shop 201 token, db')
          end
    end.

(** [router.post("/login-shop", ...)]; it writes nothing. *)
Definition loginShop (a : Ambient) (req : LoginBody) (db : list Shop.t)
  : Reply Response :=
  if JS.falsy (l_email req) || JS.falsy (l_password req) then
    NextError {| message := "Please provide all fields!"; statusCode := 400 |}
  else
    match Shop.findOne true (l_email req) db with
    | None =>
        NextError {| message := "Shop doesn't exist!"; statusCode := 400 |}
    | Some shop =>
        if negb (Shop.isVerified (Shop.doc shop)) then
          NextError {| message := "Please verify your shop account first!";
                       statusCode := 400 |}
        else
          match Shop.comparePassword shop (l_password req) with
          | inl err => NextError {| message := err; statusCode := 500 |}
          | inr isPasswordValid =>
              if negb isPasswordValid then
                NextError {| message := "Invalid credentials";
                             statusCode := 400 |}
              else
                let token := Shop.getJwtToken a shop in
                sendShopToken shop 201 token
          end
    end.

End Handlers.

End ShopController.

(** ** The error taxonomy of the specification

    The handlers raise [ErrorHandler(message, status)]; the specification
    names the failures.  Each name is the set of envelopes the two variants
    raise for it. *)

Definition AlreadyVerified (e : ErrorHandler) : Prop :=
  e = {| message := "User already verified"; statusCode := 400 |}
  \/ e = {| message := "Shop already verified"; statusCode := 400 |}.

Definition InvalidOrExpiredOtp (e : ErrorHandler) : Prop :=
  e = {| message := "Invalid or expired OTP"; statusCode := 400 |}.

Definition NotVerified (e : ErrorHandler) : Prop :=
  e = {| message := "Please verify your account first!"; statusCode := 400 |}
  \/ e = {| message := "Please verify your shop account first!";
            statusCode := 400 |}.

Definition InvalidCredentials (e : ErrorHandler) : Prop :=
  e = {| message := "Invalid credentials"; statusCode := 400 |}.

(** A failed dispatch surfaces with the transport's message and status 500. *)
Definition DeliveryFailed (e : ErrorHandler) : Prop := statusCode e = 500.



Definition Forbidden (e : ErrorHandler) : Prop := statusCode e = 403.

Section Sessions.
Context {jwtLib : JwtLib} {config : Config}.

(** The session a login answers with: status 201, the session cookie of the
    variant, and a token that [jwt.verify] under the server secret, at any
    clock before the token's expiry, decodes to the id of the account. *)
Definition sessionFor (cookie : string) (id : ObjectId) (issued : Z)
    (reply : Reply Response) : Prop :=
  exists token,
    reply = Done {| status := 201; cookies := [(cookie, token)];
                    body := Session id token |}
    /\ forall later,
        later / 1000 < issued / 1000 + JWT_EXPIRES ->
        jwt_verify token JWT_SECRET_KEY later = inr id.

End Sessions.


(** ** Reading a trace of effects *)

(** An account was persisted. *)
Definition persisted (tr : list Effect) : Prop :=
  exists id, In (Created id) tr.

(** A dispatch of the OTP mail was attempted and failed. *)
Definition dispatchFailed (tr : list Effect) : Prop :=
  exists m, In (MailAttempt m false) tr.

(** Whenever an account was persisted, a mail had been delivered before. *)
Definition dispatchedBeforePersisted (tr : list Effect) : Prop :=
  forall pre id post,
    tr = (pre ++ Created id :: post)%list ->
    exists m, In (MailAttempt m true) pre.

(** ** What the further handlers depend on

    The message of the TypeError the engine throws when a property is read
    off [null] or [undefined] (its wording is the engine's), and the
    validators Mongoose runs on a save for a modified password path
    ([required], [minLength]): [None] when they pass, otherwise the message
    of the ValidationError. *)
Class Runtime := {
  nullReadMessage : string -> string -> string;
  passwordPathErrors : option string -> option string
}.

(** ** controller/user.js and controller/shop.js: resend-otp *)

Module ResendOtp.

Record Body := { r_email : option string }.

Section Handlers.
Context {bcryptLib : BcryptLib} {jwtLib : JwtLib} {services : Services}
  {config : Config}.

(** [router.post("/resend-otp", ...)] of controller/user.js.  The trace
    lists the mails attempted. *)
Definition resendUserOtp (a : Ambient) (req : Body) (db : list User.t)
  : Reply Response * list User.t * list Effect :=
  if JS.falsy (r_email req) then
    (NextError {| message := "Email is required"; statusCode := 400 |},
     db, [])
  else
    match User.findOne false (r_email req) db with
    | None =>
        (NextError {| message := "User not found"; statusCode := 400 |},
         db, [])
    | Some user =>
        if User.isVerified (User.doc user) then
          (NextError {| message := "User already verified";
                        statusCode := 400 |}, db, [])
        else
          let otp := generateOtp (random a) in
          let otpExpiry := otpExpiryAt (now a) in
          let user := User.set_verificationOtp (Some otp) user in
          let user := User.set_verificationOtpExpiry (Some otpExpiry) user in
          match User.save a user db with
          | inl err =>
              (NextError {| message := err; statusCode := 500 |}, db, [])
          | inr (user, db') =>
              let mail :=
                {| mail_email := Some (User.email (User.doc user));
                   mail_subject := "Activate your account - New OTP";
                   mail_message :=
                     "Hello " ++ User.name (User.doc user)
                     ++ ", your new OTP to activate your account is " ++ otp
                     ++ ". It expires in 10 minutes." |} in
              match sendMail mail with
              | Some _ =>
                  (NextError {| message := "Failed to send OTP email";
                                statusCode := 500 |},
                   db', [MailAttempt mail false])
              | None =>
                  (Done {| status := 200; cookies := [];
                           body :=
                             Message
                               ("A new OTP has been sent to "
                                ++ User.email (User.doc user) ++ ".") |},
                   db', [MailAttempt mail true])
              end
          end
    end.

(** [router.post("/resend-otp", ...)] of controller/shop.js. *)
Definition resendShopOtp (a : Ambient) (req : Body) (db : list Shop.t)
  : Reply Response * list Shop.t * list Effect :=
  if JS.falsy (r_email req) then
    (NextError {| message := "Email is required"; statusCode := 400 |},
     db, [])
  else
    match Shop.findOne false (r_email req) db with
    | None =>
        (NextError {| message := "Shop not found"; statusCode := 400 |},
         db, [])
    | Some shop =>
        if Shop.isVerified (Shop.doc shop) then
          (NextError {| message := "Shop already verified";
                        statusCode := 400 |}, db, [])
        else
          let otp := generateOtp (random a) in
          let otpExpiry := otpExpiryAt (now a) in
          let shop := Shop.set_verificationOtp (Some otp) shop in
          let shop := Shop.set_verificationOtpExpiry (Some otpExpiry) shop in
          match Shop.save a shop db with
          | inl err =>
              (NextError {| message := err; statusCode := 500 |}, db, [])
          | inr (shop, db') =>
              let mail :=
                {| mail_email := Some (Shop.email (Shop.doc shop));
                   mail_subject := "Activate your shop account - New OTP";
                   mail_message :=
                     "Hello " ++ Shop.name (Shop.doc shop)
                     ++ ", your new OTP to activate your shop account is "
                     ++ otp ++ ". It expires in 10 minutes." |} in
              match sendMail mail with
              | Some _ =>
                  (NextError {| message := "Failed to send OTP email";
                                statusCode := 500 |},
                   db', [MailAttempt mail false])
              | None =>
                  (Done {| status := 200; cookies := [];
                           body :=
                             Message
                               ("A new OTP has been sent to "
                                ++ Shop.email (Shop.doc shop) ++ ".") |},
                   db', [MailAttempt mail true])
              end
          end
    end.

End Handlers.

(** An account with a fresh OTP pair: the two OTP paths replaced, every
    other path, the verification state among them, as it was. *)
Definition userReissued (code : string) (expiry : Z) (u : User.t) : User.t :=
  User.with_verificationOtpExpiry (Some expiry)
    (User.with_verificationOtp (Some code) u).

Definition shopReissued (code : string) (expiry : Z) (u : Shop.t) : Shop.t :=
  Shop.with_verificationOtpExpiry (Some expiry)
    (Shop.with_verificationOtp (Some code) u).

End ResendOtp.

(** ** controller/user.js: update-user-password *)

Module PasswordChange.

Record Body := {
  oldPassword : option string;
  newPassword : option string;
  confirmPassword : option string
}.

Definition optionEqb (x y : option string) : bool := negb (JS.strict_neq x y).

(** [user.password = v]: Mongoose marks the path modified only when the
    value differs from the one the document has. *)
Definition assignPassword (v : option string) (d : User.Document)
  : User.Document :=
  if optionEqb (User.password (User.doc d)) v then d
  else User.set_password v d.

(** [User.findById(id).select("+password")]. *)
Definition findByIdWithPassword (id : ObjectId) (db : list User.t)
  : option User.Document :=
  option_map (User.loaded true) (find (fun u => String.eqb (User._id u) id) db).

Section Handlers.
Context {bcryptLib : BcryptLib} {jwtLib : JwtLib} {services : Services}
  {config : Config} {runtime : Runtime}.

(** [router.put("/update-user-password", isAuthenticated, ...)]: the
    handler, on the request [isAuthenticated] passed on. *)
Definition updateUserPassword (a : Ambient) (req : Auth.Request) (body : Body)
    (db : list User.t) : Reply Response * list User.t :=
  match Auth.req_user req with
  | None =>
      (NextError {| message := nullReadMessage "undefined" "id";
                    statusCode := 500 |}, db)
  | Some principal =>
      match findByIdWithPassword (User._id (User.doc principal)) db with
      | None =>
          (NextError {| message := nullReadMessage "null" "comparePassword";
                        statusCode := 500 |}, db)
      | Some user =>
          match User.comparePassword user (oldPassword body) with
          | inl err =>
              (NextError {| message := err; statusCode := 500 |}, db)
          | inr isPasswordMatched =>
              if negb isPasswordMatched then
                (NextError {| message := "Old password is incorrect!";
                              statusCode := 400 |}, db)
              else if JS.strict_neq (newPassword body) (confirmPassword body)
              then
                (NextError {| message := "Passwords don't match!";
                              statusCode := 400 |}, db)
              else
                let user := assignPassword (newPassword body) user in
                match (if User.isModified "password" user
                       then passwordPathErrors (newPassword body)
                       else None) with
                | Some err =>
                    (NextError {| message := err; statusCode := 500 |}, db)
                | None =>
                    match User.save a user db with
                    | inl err =>
                        (NextError {| message := err; statusCode := 500 |},
                         db)
                    | inr (_, db') =>
                        (Done {| status := 200; cookies := [];
                                 body :=
                                   Message "Password updated successfully!" |},
                         db')
                    end
                end
          end
      end
  end.

End Handlers.

End PasswordChange.

(** ** The admin routes

    [router.<verb>(path, isAuthenticated, isAdmin("Admin"), handler)]: the
    stack of admin-all-users and delete-user (controller/user.js), of
    admin-all-sellers and delete-seller (controller/shop.js) and of
    admin-all-products (the product controller).  A middleware ends the
    request with [next(err)] or passes it on, [isAuthenticated] with
    [req.user] set. *)

Module AdminRoute.

Definition withUser (user : User.Document) (req : Auth.Request)
  : Auth.Request :=
  {| Auth.cookies_token := Auth.cookies_token req;
     Auth.cookies_seller_token := Auth.cookies_seller_token req;
     Auth.headers_authorization := Auth.headers_authorization req;
     Auth.req_user := Some user |}.

Section Stack.
Context {bcryptLib : BcryptLib} {jwtLib : JwtLib} {services : Services}
  {config : Config}.

Definition run {A : Type} (a : Ambient) (req : Auth.Request)
    (users : list User.t) (handler : Auth.Request -> Reply A) : Reply A :=
  match Auth.isAuthenticated a req users with
  | NextError e => NextError e
  | Done user =>
      let req := withUser user req in
      match Auth.isAdmin ["Admin"] req with
      | NextError e => NextError e
      | Done _ => handler req
      end
  end.

End Stack.

End AdminRoute.

(** ** The product controller: delete-shop-product *)

Module Product.

(** The paths of a product the handler reads, as create-product sets
    them; the catalogue paths are read by no handler modelled here. *)
Record t := {
  _id : ObjectId;
  name : string;
  shop : ObjectId;
  seller : ObjectId
}.

(** [Product.findById(id)]. *)
Definition findById (id : ObjectId) (db : list t) : option t :=
  find (fun p => String.eqb (_id p) id) db.


Section Handlers.
Context {bcryptLib : BcryptLib} {jwtLib : JwtLib} {services : Services}
  {config : Config}.



End Handlers.

End Product.

(** ** A small implementation of the interfaces, and sample data

    Used to run the handlers on concrete requests. *)

Module Sample.

Fixpoint stripPrefix (p s : string) : option string :=
  match p, s with
  | EmptyString, _ => Some s
  | String a p', String b s' =>
      if Ascii.eqb a b then stripPrefix p' s' else None
  | String _ _, EmptyString => None
  end.

(** A token is the secret, a dot and the id; it does not expire. *)
Definition jwt : JwtLib :=
  {| jwt_sign := fun id secret _ _ => secret ++ "." ++ id;
     jwt_verify := fun token secret _ =>
       match stripPrefix (secret ++ ".") token with
       | Some id => inr id
       | None =>
           inl {| errName := "JsonWebTokenError";
                  errMessage := "invalid signature" |}
       end |}.

(** A hash is a fixed header and the string. *)
Definition bcrypt : BcryptLib :=
  {| bcrypt_hashString := fun s _ => "$2a$10$" ++ s;
     bcrypt_compareString := fun s h => String.eqb h ("$2a$10$" ++ s) |}.

(** A transport that delivers every mail. *)
Definition services : Services :=
  {| sendMail := fun _ => None;
     cloudinary_upload := fun image folder =>
       inr {| public_id := folder ++ "/1"; url := "https://media.test/1" |};
     validator_isEmail := fun _ => true |}.

(** A transport that is down. *)
Definition servicesDown : Services :=
  {| sendMail := fun _ => Some "connect ECONNREFUSED";
     cloudinary_upload := cloudinary_upload (Services := services);
     validator_isEmail := fun _ => true |}.

Definition config : Config :=
  {| JWT_SECRET_KEY := "k"; JWT_EXPIRES := 604800 |}.

Definition ambient : Ambient :=
  {| now := 1000000; random := 1 # 2; salt := "s"; freshId := "id2" |}.

Definition alice : User.t :=
  {| User._id := "u1"; User.name := "Alice";
     User.email := "alice@example.com";
     User.password := Some "$2a$10$secret1";
     User.role := "user"; User.avatar := None;
     User.verificationOtp := Some "123456";
     User.verificationOtpExpiry := Some 1600000;
     User.isVerified := false |}.

Definition aliceVerified : User.t := User.activated alice.

Definition corner : Shop.t :=
  {| Shop._id := "s1"; Shop.name := "Corner";
     Shop.email := "corner@example.com";
     Shop.password := Some "$2a$10$secret1";
     Shop.address := "1 Main St"; Shop.zipCode := "12345";
     Shop.role := "Seller";
     Shop.avatar := {| public_id := "a"; url := "https://media.test/a" |};
     Shop.verificationOtp := Some "123456";
     Shop.verificationOtpExpiry := Some 1600000;
     Shop.isVerified := false |}.

Definition cornerVerified : Shop.t := Shop.activated corner.

Definition aliceActivation : UserController.ActivationBody :=
  {| UserController.a_email := Some "alice@example.com";
     UserController.a_otp := Some "123456" |}.

Definition aliceLogin : UserController.LoginBody :=
  {| UserController.l_email := Some "alice@example.com";
     UserController.l_password := Some "secret1" |}.

Definition bobRegistration : UserController.CreateUserBody :=
  {| UserController.c_name := Some "Bob";
     UserController.c_email := Some "bob@example.com";
     UserController.c_password := Some "secret1";
     UserController.c_avatar := None;
     UserController.c_role := None |}.

Definition cornerActivation : ShopController.ActivationBody :=
  {| ShopController.a_email := Some "corner@example.com";
     ShopController.a_otp := Some "123456" |}.

Definition cornerLogin : ShopController.LoginBody :=
  {| ShopController.l_email := Some "corner@example.com";
     ShopController.l_password := Some "secret1" |}.

Definition depotRegistration : ShopController.CreateShopBody :=
  {| ShopController.c_name := Some "Depot";
     ShopController.c_email := Some "depot@example.com";
     ShopController.c_password := Some "secret1";
     ShopController.c_avatar :=
       Some {| public_id := "d"; url := "https://media.test/d" |};
     ShopController.c_address := Some "2 Main St";
     ShopController.c_zipCode := Some "12345" |}.

(** The code [generateOtp] draws from [random ambient]. *)
Definition depotActivation : ShopController.ActivationBody :=
  {| ShopController.a_email := Some "depot@example.com";
     ShopController.a_otp := Some "550000" |}.

Definition depotLogin : ShopController.LoginBody :=
  {| ShopController.l_email := Some "depot@example.com";
     ShopController.l_password := Some "secret1" |}.


(** A request [isAuthenticated] resolved to [alice]. *)
Definition aliceRequest : Auth.Request :=
  {| Auth.cookies_token := Some "k.u1";
     Auth.cookies_seller_token := None;
     Auth.headers_authorization := None;
     Auth.req_user := Some (User.loaded false aliceVerified) |}.

End Sample.

(** Sample data for the further handlers. *)

Module SampleMore.

(** An engine with V8's wording, and the password validators of the user
    schema. *)
Definition runtime : Runtime :=
  {| nullReadMessage := fun value property =>
       "Cannot read properties of " ++ value ++ " (reading '" ++ property
       ++ "')";
     passwordPathErrors := fun v =>
       match v with
       | Some p =>
           if (6 <=? String.length p)%nat then None
           else Some "User validation failed: password"
       | None => Some "User validation failed: password"
       end |}.

Definition resendAlice : ResendOtp.Body :=
  {| ResendOtp.r_email := Some "alice@example.com" |}.

Definition resendCorner : ResendOtp.Body :=
  {| ResendOtp.r_email := Some "corner@example.com" |}.

(** The code a resend draws from [random Sample.ambient]. *)
Definition aliceNewCode : UserController.ActivationBody :=
  {| UserController.a_email := Some "alice@example.com";
     UserController.a_otp := Some "550000" |}.


(** A verified account of role [admin], and a request with its session. *)
Definition ada : User.t :=
  {| User._id := "u9"; User.name := "Ada";
     User.email := "ada@example.com";
     User.password := Some "$2a$10$secret1";
     User.role := "admin"; User.avatar := None;
     User.verificationOtp := None;
     User.verificationOtpExpiry := None;
     User.isVerified := true |}.

Definition adaRequest : Auth.Request :=
  {| Auth.cookies_token := Some "k.u9";
     Auth.cookies_seller_token := None;
     Auth.headers_authorization := None;
     Auth.req_user := None |}.


Definition changeAlice : PasswordChange.Body :=
  {| PasswordChange.oldPassword := Some "secret1";
     PasswordChange.newPassword := Some "secret2";
     PasswordChange.confirmPassword := Some "secret2" |}.

Definition aliceNewLogin : UserController.LoginBody :=
  {| UserController.l_email := Some "alice@example.com";
     UserController.l_password := Some "secret2" |}.



Definition longBearerRequest : Auth.Request :=
  {| Auth.cookies_token := None;
     Auth.cookies_seller_token := None;
     Auth.headers_authorization := Some "Bearer k.s1 trailing";
     Auth.req_user := None |}.

End SampleMore.

(** * Properties *)

(** ** Collections and JavaScript helpers *)

Section MongoFacts.
Context {A B : Type} (key : A -> ObjectId).

Lemma updateOne_map (g : A -> B) (f : A -> A) id db :
  (forall x, g (f x) = g x) ->
  map g (Mongo.updateOne key id f db) = map g db.
Proof.
  intros Hg. induction db as [|x rest IH]; simpl; [reflexivity|].
  destruct (String.eqb (key x) id); simpl.
  - now rewrite Hg.
  - now rewrite IH.
Qed.

Lemma updateOne_find (p : A -> bool) (f : A -> A) u db :
  Mongo.uniqueIds key db ->
  find p db = Some u ->
  p (f u) = true ->
  find p (Mongo.updateOne key (key u) f db) = Some (f u).
Proof.
  unfold Mongo.uniqueIds.
  induction db as [|x rest IH]; simpl; intros Hnd Hfind Hp; [discriminate|].
  inversion Hnd as [|k ks Hnotin Hrest]; subst.
  destruct (p x) eqn:Epx.
  - injection Hfind as ->. rewrite String.eqb_refl. simpl. now rewrite Hp.
  - destruct (String.eqb (key x) (key u)) eqn:Ek.
    + exfalso. apply String.eqb_eq in Ek. apply Hnotin.
      rewrite Ek. apply in_map. now apply find_some in Hfind.
    + simpl. rewrite Epx. now apply IH.
Qed.

End MongoFacts.

Lemma find_app_last {A : Type} (p : A -> bool) l x :
  find p l = None -> p x = true -> find p (l ++ [x]) = Some x.
Proof.
  intros Hnone Hx. induction l as [|y l IH]; simpl in *.
  - now rewrite Hx.
  - destruct (p y); [discriminate | now apply IH].
Qed.

Lemma uniqueIds_app_last {A : Type} (key : A -> ObjectId) db x :
  Mongo.uniqueIds key db ->
  ~ In (key x) (map key db) ->
  Mongo.uniqueIds key (db ++ [x]).
Proof.
  unfold Mongo.uniqueIds. intros Hnd Hfresh. rewrite map_app.
  apply NoDup_app; [exact Hnd | repeat constructor; intros [] |].
  intros k Hin [<- | []]. contradiction.
Qed.

Lemma updateOne_uniqueIds {A : Type} (key : A -> ObjectId) f id db :
  (forall x, key (f x) = key x) ->
  Mongo.uniqueIds key db ->
  Mongo.uniqueIds key (Mongo.updateOne key id f db).
Proof.
  unfold Mongo.uniqueIds. intros Hk Hnd.
  now rewrite (updateOne_map key key f id db Hk).
Qed.

Lemma supplied_falsy v s : JS.supplied v s -> JS.falsy v = false.
Proof.
  intros [-> Hs]. simpl. now apply String.eqb_neq.
Qed.

Lemma supplied_present v s : JS.supplied v s -> JS.present v = Some s.
Proof.
  intros [-> Hs]. simpl. apply String.eqb_neq in Hs. now rewrite Hs.
Qed.

Lemma strict_neq_same s : JS.strict_neq (Some s) (Some s) = false.
Proof. simpl. now rewrite String.eqb_refl. Qed.

Lemma strict_neq_other s t : s <> t -> JS.strict_neq (Some s) (Some t) = true.
Proof. intros Hne. simpl. apply String.eqb_neq in Hne. now rewrite Hne. Qed.

Lemma lt_number_le x y : y <= x -> JS.lt_number (Some x) y = false.
Proof. intros Hle. simpl. apply Z.ltb_ge. lia. Qed.

Lemma lt_number_lt x y : x < y -> JS.lt_number (Some x) y = true.
Proof. intros Hlt. simpl. now apply Z.ltb_lt. Qed.

(** ** Activation *)

Section UserActivation.
Context {bcryptLib : BcryptLib} {jwtLib : JwtLib} {services : Services}
  {config : Config}.

Lemma user_findOne_byEmail wp v e db u :
  JS.supplied v e ->
  User.byEmail e db = Some u ->
  User.findOne wp v db = Some (User.loaded wp u).
Proof.
  intros [-> _] Hu. unfold User.findOne. now rewrite Hu.
Qed.

Lemma user_loaded_paths wp u :
  User.isVerified (User.doc (User.loaded wp u)) = User.isVerified u
  /\ User.verificationOtp (User.doc (User.loaded wp u)) = User.verificationOtp u
  /\ User.verificationOtpExpiry (User.doc (User.loaded wp u))
     = User.verificationOtpExpiry u
  /\ User._id (User.doc (User.loaded wp u)) = User._id u.
Proof. destruct wp, u; repeat split. Qed.

Lemma user_save_unmodified a d db :
  User.isModified "password" d = false ->
  User.save a d db
  = inr ({| User.doc := User.doc d; User.isNew := false;
            User.modifiedPaths := [] |},
         User.persist d db).
Proof.
  intros Hm. unfold User.save, User.preSave. now rewrite Hm.
Qed.

Lemma user_activation_succeeds a req db e code expiry u :
  Mongo.uniqueIds User._id db ->
  JS.supplied (UserController.a_email req) e ->
  JS.supplied (UserController.a_otp req) code ->
  User.byEmail e db = Some u ->
  User.pendingOtp u code expiry ->
  now a <= expiry ->
  exists r db',
    UserController.activation a req db = (Done r, db')
    /\ status r = 201
    /\ User.byEmail e db' = Some (User.activated u)
    /\ Mongo.uniqueIds User._id db'
    /\ map User.password db' = map User.password db.
Proof.
  intros Hnd He Hc Hu (Hv & Hotp & Hexp) Hnow.
  unfold UserController.activation.
  rewrite (supplied_falsy _ _ He), (supplied_falsy _ _ Hc). simpl orb. cbv iota.
  rewrite (user_findOne_byEmail false _ _ _ _ He Hu).
  destruct (user_loaded_paths false u) as (-> & -> & -> & _).
  destruct Hc as [Hc Hcne]. rewrite Hc, Hv, Hotp, Hexp.
  rewrite strict_neq_same, (lt_number_le _ _ Hnow).
  simpl orb. cbv iota.
  rewrite user_save_unmodified by reflexivity.
  eexists _, _. split; [reflexivity|]. split; [reflexivity|].
  unfold User.persist. simpl User.isNew. cbv iota.
  split.
  - unfold User.byEmail in *.
    erewrite (updateOne_find User._id _ _ u db Hnd Hu); [reflexivity|].
    apply find_some in Hu. exact (proj2 Hu).
  - split; [apply updateOne_uniqueIds; [reflexivity | exact Hnd]|].
    now apply updateOne_map.
Qed.

Lemma user_activation_repeated a req db e code u :
  JS.supplied (UserController.a_email req) e ->
  JS.supplied (UserController.a_otp req) code ->
  User.byEmail e db = Some u ->
  User.isVerified u = true ->
  UserController.activation a req db
  = (NextError {| message := "User already verified"; statusCode := 400 |},
     db).
Proof.
  intros He Hc Hu Hv.
  unfold UserController.activation.
  rewrite (supplied_falsy _ _ He), (supplied_falsy _ _ Hc). simpl orb. cbv iota.
  rewrite (user_findOne_byEmail false _ _ _ _ He Hu).
  destruct (user_loaded_paths false u) as (-> & _).
  now rewrite Hv.
Qed.

Lemma user_activation_rejects a req db e supplied code expiry u :
  JS.supplied (UserController.a_email req) e ->
  JS.supplied (UserController.a_otp req) supplied ->
  User.byEmail e db = Some u ->
  User.pendingOtp u code expiry ->
  supplied <> code \/ expiry < now a ->
  UserController.activation a req db
  = (NextError {| message := "Invalid or expired OTP"; statusCode := 400 |},
     db).
Proof.
  intros He Hc Hu (Hv & Hotp & Hexp) Hbad.
  unfold UserController.activation.
  rewrite (supplied_falsy _ _ He), (supplied_falsy _ _ Hc). simpl orb. cbv iota.
  rewrite (user_findOne_byEmail false _ _ _ _ He Hu).
  destruct (user_loaded_paths false u) as (-> & -> & -> & _).
  destruct Hc as [Hc Hcne]. rewrite Hc, Hv, Hotp, Hexp.
  destruct Hbad as [Hne | Hlate].
  - rewrite strict_neq_other by congruence. reflexivity.
  - rewrite (lt_number_lt _ _ Hlate), orb_true_r. reflexivity.
Qed.

End UserActivation.

Section ShopActivation.
Context {bcryptLib : BcryptLib} {jwtLib : JwtLib} {services : Services}
  {config : Config}.

Lemma shop_findOne_byEmail wp v e db u :
  JS.supplied v e ->
  Shop.byEmail e db = Some u ->
  Shop.findOne wp v db = Some (Shop.loaded wp u).
Proof.
  intros [-> _] Hu. unfold Shop.findOne. now rewrite Hu.
Qed.

Lemma shop_loaded_paths wp u :
  Shop.isVerified (Shop.doc (Shop.loaded wp u)) = Shop.isVerified u
  /\ Shop.verificationOtp (Shop.doc (Shop.loaded wp u)) = Shop.verificationOtp u
  /\ Shop.verificationOtpExpiry (Shop.doc (Shop.loaded wp u))
     = Shop.verificationOtpExpiry u
  /\ Shop._id (Shop.doc (Shop.loaded wp u)) = Shop._id u.
Proof. destruct wp, u; repeat split. Qed.

(** An unmodified password: the hook has handed the save on before its
    hashing statement runs, whatever that statement then does. *)
Lemma shop_save_unmodified a d db :
  Shop.isModified "password" d = false ->
  Shop.save a d db
  = inr ({| Shop.doc := Shop.doc d; Shop.isNew := false;
            Shop.modifiedPaths := []; Shop.token := Shop.token d |},
         Shop.persist d db).
Proof.
  intros Hm. unfold Shop.save, Shop.preSave, hookOutcome. rewrite Hm.
  now destruct (bcrypt_hash (Shop.password (Shop.doc d)) (salt a)).
Qed.

Lemma shop_activation_succeeds a req db e code expiry u :
  Mongo.uniqueIds Shop._id db ->
  JS.supplied (ShopController.a_email req) e ->
  JS.supplied (ShopController.a_otp req) code ->
  Shop.byEmail e db = Some u ->
  Shop.pendingOtp u code expiry ->
  now a <= expiry ->
  exists r db',
    ShopController.activation a req db = (Done r, db')
    /\ status r = 201
    /\ Shop.byEmail e db' = Some (Shop.activated u)
    /\ Mongo.uniqueIds Shop._id db'
    /\ map Shop.password db' = map Shop.password db.
Proof.
  intros Hnd He Hc Hu (Hv & Hotp & Hexp) Hnow.
  unfold ShopController.activation.
  rewrite (supplied_falsy _ _ He), (supplied_falsy _ _ Hc). simpl orb. cbv iota.
  rewrite (shop_findOne_byEmail false _ _ _ _ He Hu).
  destruct (shop_loaded_paths false u) as (-> & -> & -> & _).
  destruct Hc as [Hc Hcne]. rewrite Hc, Hv, Hotp, Hexp.
  rewrite strict_neq_same, (lt_number_le _ _ Hnow).
  simpl orb. cbv iota.
  rewrite shop_save_unmodified by reflexivity.
  eexists _, _. split; [reflexivity|]. split; [reflexivity|].
  unfold Shop.persist. simpl Shop.isNew. cbv iota.
  split.
  - unfold Shop.byEmail in *.
    erewrite (updateOne_find Shop._id _ _ u db Hnd Hu); [reflexivity|].
    apply find_some in Hu. exact (proj2 Hu).
  - split; [apply updateOne_uniqueIds; [reflexivity | exact Hnd]|].
    now apply updateOne_map.
Qed.

Lemma shop_activation_repeated a req db e code u :
  JS.supplied (ShopController.a_email req) e ->
  JS.supplied (ShopController.a_otp req) code ->
  Shop.byEmail e db = Some u ->
  Shop.isVerified u = true ->
  ShopController.activation a req db
  = (NextError {| message := "Shop already verified"; statusCode := 400 |},
     db).
Proof.
  intros He Hc Hu Hv.
  unfold ShopController.activation.
  rewrite (supplied_falsy _ _ He), (supplied_falsy _ _ Hc). simpl orb. cbv iota.
  rewrite (shop_findOne_byEmail false _ _ _ _ He Hu).
  destruct (shop_loaded_paths false u) as (-> & _).
  now rewrite Hv.
Qed.

Lemma shop_activation_rejects a req db e supplied code expiry u :
  JS.supplied (ShopController.a_email req) e ->
  JS.supplied (ShopController.a_otp req) supplied ->
  Shop.byEmail e db = Some u ->
  Shop.pendingOtp u code expiry ->
  supplied <> code \/ expiry < now a ->
  ShopController.activation a req db
  = (NextError {| message := "Invalid or expired OTP"; statusCode := 400 |},
     db).
Proof.
  intros He Hc Hu (Hv & Hotp & Hexp) Hbad.
  unfold ShopController.activation.
  rewrite (supplied_falsy _ _ He), (supplied_falsy _ _ Hc). simpl orb. cbv iota.
  rewrite (shop_findOne_byEmail false _ _ _ _ He Hu).
  destruct (shop_loaded_paths false u) as (-> & -> & -> & _).
  destruct Hc as [Hc Hcne]. rewrite Hc, Hv, Hotp, Hexp.
  destruct Hbad as [Hne | Hlate].
  - rewrite strict_neq_other by congruence. reflexivity.
  - rewrite (lt_number_lt _ _ Hlate), orb_true_r. reflexivity.
Qed.

End ShopActivation.

Section ActivationClaims.
Context {bcryptLib : BcryptLib} {jwtLib : JwtLib} {services : Services}
  {config : Config}.

(** C1.  For an account of either variant in the pending-otp state, the
    activation handler called with the stored OTP no later than its expiry
    answers 201 and leaves the account stored as verified with both OTP
    paths cleared (every other path as it was); the same request sent again
    afterwards, at any time, is passed to [next] as AlreadyVerified and
    changes nothing. *)
Theorem activation_verifies_then_refuses_repeat :
  (forall a a' req db e code expiry u,
      Mongo.uniqueIds User._id db ->
      JS.supplied (UserController.a_email req) e ->
      JS.supplied (UserController.a_otp req) code ->
      User.byEmail e db = Some u ->
      User.pendingOtp u code expiry ->
      now a <= expiry ->
      exists r db' u',
        UserController.activation a req db = (Done r, db')
        /\ User.byEmail e db' = Some u'
        /\ User.isVerified u' = true
        /\ User.verificationOtp u' = None
        /\ User.verificationOtpExpiry u' = None
        /\ User.sameAccount u u'
        /\ exists err,
            UserController.activation a' req db' = (NextError err, db')
            /\ AlreadyVerified err)
  /\ (forall a a' req db e code expiry u,
      Mongo.uniqueIds Shop._id db ->
      JS.supplied (ShopController.a_email req) e ->
      JS.supplied (ShopController.a_otp req) code ->
      Shop.byEmail e db = Some u ->
      Shop.pendingOtp u code expiry ->
      now a <= expiry ->
      exists r db' u',
        ShopController.activation a req db = (Done r, db')
        /\ Shop.byEmail e db' = Some u'
        /\ Shop.isVerified u' = true
        /\ Shop.verificationOtp u' = None
        /\ Shop.verificationOtpExpiry u' = None
        /\ Shop.sameAccount u u'
        /\ exists err,
            ShopController.activation a' req db' = (NextError err, db')
            /\ AlreadyVerified err).
Proof.
  split; intros a a' req db e code expiry u Hnd He Hc Hu Hp Hnow.
  - destruct (user_activation_succeeds a req db e code expiry u
                Hnd He Hc Hu Hp Hnow) as (r & db' & Hrun & _ & Hu' & _).
    exists r, db', (User.activated u).
    split; [exact Hrun|]. split; [exact Hu'|].
    do 3 (split; [reflexivity|]). split; [repeat split|].
    eexists. split.
    + now apply (user_activation_repeated a' req db' e code (User.activated u)).
    + now left.
  - destruct (shop_activation_succeeds a req db e code expiry u
                Hnd He Hc Hu Hp Hnow) as (r & db' & Hrun & _ & Hu' & _).
    exists r, db', (Shop.activated u).
    split; [exact Hrun|]. split; [exact Hu'|].
    do 3 (split; [reflexivity|]). split; [repeat split|].
    eexists. split.
    + now apply (shop_activation_repeated a' req db' e code (Shop.activated u)).
    + now right.
Qed.

(** C2.  For an account of either variant in the pending-otp state, the
    activation handler fails with InvalidOrExpiredOtp when the supplied OTP
    differs from the stored one, whatever the expiry and the clock, and
    when the stored expiry is earlier than the clock, even with the stored
    OTP; in both cases the collection is left as it was. *)
Theorem activation_rejects_wrong_or_expired_otp :
  (forall a req db e supplied code expiry u,
      JS.supplied (UserController.a_email req) e ->
      JS.supplied (UserController.a_otp req) supplied ->
      User.byEmail e db = Some u ->
      User.pendingOtp u code expiry ->
      supplied <> code \/ (supplied = code /\ expiry < now a) ->
      exists err,
        UserController.activation a req db = (NextError err, db)
        /\ InvalidOrExpiredOtp err)
  /\ (forall a req db e supplied code expiry u,
      JS.supplied (ShopController.a_email req) e ->
      JS.supplied (ShopController.a_otp req) supplied ->
      Shop.byEmail e db = Some u ->
      Shop.pendingOtp u code expiry ->
      supplied <> code \/ (supplied = code /\ expiry < now a) ->
      exists err,
        ShopController.activation a req db = (NextError err, db)
        /\ InvalidOrExpiredOtp err).
Proof.
  split; intros a req db e supplied code expiry u He Hc Hu Hp Hbad;
    eexists; (split; [|reflexivity]).
  - apply (user_activation_rejects a req db e supplied code expiry u);
      try assumption. tauto.
  - apply (shop_activation_rejects a req db e supplied code expiry u);
      try assumption. tauto.
Qed.

End ActivationClaims.

(** ** Login *)

Section Login.
Context {bcryptLib : BcryptLib} {jwtLib : JwtLib} {services : Services}
  {config : Config}.

Lemma user_login_unverified a req db e p u :
  JS.supplied (UserController.l_email req) e ->
  JS.supplied (UserController.l_password req) p ->
  User.byEmail e db = Some u ->
  User.isVerified u = false ->
  UserController.loginUser a req db
  = NextError {| message := "Please verify your account first!";
                 statusCode := 400 |}.
Proof.
  intros He Hp Hu Hv. unfold UserController.loginUser.
  rewrite (supplied_falsy _ _ He), (supplied_falsy _ _ Hp). simpl orb. cbv iota.
  rewrite (user_findOne_byEmail true _ _ _ _ He Hu).
  simpl. now rewrite Hv.
Qed.

Lemma shop_login_unverified a req db e p u :
  JS.supplied (ShopController.l_email req) e ->
  JS.supplied (ShopController.l_password req) p ->
  Shop.byEmail e db = Some u ->
  Shop.isVerified u = false ->
  ShopController.loginShop a req db
  = NextError {| message := "Please verify your shop account first!";
                 statusCode := 400 |}.
Proof.
  intros He Hp Hu Hv. unfold ShopController.loginShop.
  rewrite (supplied_falsy _ _ He), (supplied_falsy _ _ Hp). simpl orb. cbv iota.
  rewrite (shop_findOne_byEmail true _ _ _ _ He Hu).
  simpl. now rewrite Hv.
Qed.

(** What a verified account's login comes down to: the comparison of the
    supplied password with the stored hash. *)
Lemma user_login_verified a req db e p u h :
  JS.supplied (UserController.l_email req) e ->
  JS.supplied (UserController.l_password req) p ->
  User.byEmail e db = Some u ->
  User.isVerified u = true ->
  User.password u = Some h ->
  UserController.loginUser a req db
  = if bcrypt_compareString p h then
      Done {| status := 201;
              cookies :=
                [("token",
                  jwt_sign (User._id u) JWT_SECRET_KEY JWT_EXPIRES (now a))];
              body :=
                Session (User._id u)
                  (jwt_sign (User._id u) JWT_SECRET_KEY JWT_EXPIRES (now a)) |}
    else NextError {| message := "Invalid credentials"; statusCode := 400 |}.
Proof.
  intros He Hp Hu Hv Hh. unfold UserController.loginUser.
  rewrite (supplied_falsy _ _ He), (supplied_falsy _ _ Hp). simpl orb. cbv iota.
  rewrite (user_findOne_byEmail true _ _ _ _ He Hu).
  destruct Hp as [Hp _]. rewrite Hp.
  unfold User.comparePassword. simpl. rewrite Hv, Hh. simpl.
  now destruct (bcrypt_compareString p h).
Qed.

Lemma shop_login_verified a req db e p u h :
  JS.supplied (ShopController.l_email req) e ->
  JS.supplied (ShopController.l_password req) p ->
  Shop.byEmail e db = Some u ->
  Shop.isVerified u = true ->
  Shop.password u = Some h ->
  ShopController.loginShop a req db
  = if bcrypt_compareString p h then
      Done {| status := 201;
              cookies :=
                [("seller_token",
                  jwt_sign (Shop._id u) JWT_SECRET_KEY JWT_EXPIRES (now a))];
              body :=
                Session (Shop._id u)
                  (jwt_sign (Shop._id u) JWT_SECRET_KEY JWT_EXPIRES (now a)) |}
    else NextError {| message := "Invalid credentials"; statusCode := 400 |}.
Proof.
  intros He Hp Hu Hv Hh. unfold ShopController.loginShop.
  rewrite (supplied_falsy _ _ He), (supplied_falsy _ _ Hp). simpl orb. cbv iota.
  rewrite (shop_findOne_byEmail true _ _ _ _ He Hu).
  destruct Hp as [Hp _]. rewrite Hp.
  unfold Shop.comparePassword. simpl. rewrite Hv, Hh. simpl.
  now destruct (bcrypt_compareString p h).
Qed.

(** C4.  For an account of either variant that is not verified, the login
    handler fails with NotVerified for every supplied password and every
    bcryptjs: the password comparison is not reached. *)
Theorem login_unverified_fails_whatever_the_password :
  (forall a req db e p u,
      JS.supplied (UserController.l_email req) e ->
      JS.supplied (UserController.l_password req) p ->
      User.byEmail e db = Some u ->
      User.isVerified u = false ->
      exists err,
        UserController.loginUser a req db = NextError err /\ NotVerified err)
  /\ (forall a req db e p u,
      JS.supplied (ShopController.l_email req) e ->
      JS.supplied (ShopController.l_password req) p ->
      Shop.byEmail e db = Some u ->
      Shop.isVerified u = false ->
      exists err,
        ShopController.loginShop a req db = NextError err /\ NotVerified err).
Proof.
  split; intros a req db e p u He Hp Hu Hv; eexists; split.
  - exact (user_login_unverified a req db e p u He Hp Hu Hv).
  - now left.
  - exact (shop_login_unverified a req db e p u He Hp Hu Hv).
  - now right.
Qed.

(** C5.  For a verified account of either variant, the login handler with
    the account's e-mail fails with InvalidCredentials when bcryptjs rejects
    the supplied password against the stored hash, and otherwise answers
    with a session whose token verifies, under the secret the middleware
    uses and before its expiry, to the id of that account. *)
Theorem login_checks_password_and_token_round_trips :
  jwt_sound ->
  (forall a req db e p u h,
      JS.supplied (UserController.l_email req) e ->
      JS.supplied (UserController.l_password req) p ->
      User.byEmail e db = Some u ->
      User.isVerified u = true ->
      User.password u = Some h ->
      (bcrypt_compareString p h = false ->
       exists err,
         UserController.loginUser a req db = NextError err
         /\ InvalidCredentials err)
      /\ (bcrypt_compareString p h = true ->
          sessionFor "token" (User._id u) (now a)
            (UserController.loginUser a req db)))
  /\ (forall a req db e p u h,
      JS.supplied (ShopController.l_email req) e ->
      JS.supplied (ShopController.l_password req) p ->
      Shop.byEmail e db = Some u ->
      Shop.isVerified u = true ->
      Shop.password u = Some h ->
      (bcrypt_compareString p h = false ->
       exists err,
         ShopController.loginShop a req db = NextError err
         /\ InvalidCredentials err)
      /\ (bcrypt_compareString p h = true ->
          sessionFor "seller_token" (Shop._id u) (now a)
            (ShopController.loginShop a req db))).
Proof.
  intros Hjwt.
  split; intros a req db e p u h He Hp Hu Hv Hh.
  - rewrite (user_login_verified a req db e p u h He Hp Hu Hv Hh).
    split; intros Hcmp; rewrite Hcmp.
    + eexists. split; reflexivity.
    + eexists. split; [reflexivity|]. intros later Hlater. now apply Hjwt.
  - rewrite (shop_login_verified a req db e p u h He Hp Hu Hv Hh).
    split; intros Hcmp; rewrite Hcmp.
    + eexists. split; reflexivity.
    + eexists. split; [reflexivity|]. intros later Hlater. now apply Hjwt.
Qed.

End Login.

(** ** The one-time code *)

Lemma decimal_more f n acc :
  n / 10 <> 0 ->
  JS.decimal (S f) n acc
  = JS.decimal f (n / 10) (String (JS.digitChar (n mod 10)) acc).
Proof.
  intros Hq. simpl. apply Z.eqb_neq in Hq. now rewrite Hq.
Qed.

Lemma decimal_last f n acc :
  n / 10 = 0 ->
  JS.decimal (S f) n acc = String (JS.digitChar (n mod 10)) acc.
Proof.
  intros Hq. simpl. apply Z.eqb_eq in Hq. now rewrite Hq.
Qed.

Lemma div10_bounds lo hi n :
  10 * lo <= n < 10 * hi -> lo <= n / 10 < hi.
Proof.
  intros [Hlo Hhi]. split.
  - apply Z.div_le_lower_bound; lia.
  - apply Z.div_lt_upper_bound; lia.
Qed.

Lemma digitChar_isDigit n : JS.isDigit (JS.digitChar (n mod 10)) = true.
Proof.
  assert (Hb : 0 <= n mod 10 < 10) by (apply Z.mod_pos_bound; lia).
  assert (Hd : n mod 10 = 0 \/ n mod 10 = 1 \/ n mod 10 = 2 \/ n mod 10 = 3
               \/ n mod 10 = 4 \/ n mod 10 = 5 \/ n mod 10 = 6
               \/ n mod 10 = 7 \/ n mod 10 = 8 \/ n mod 10 = 9) by lia.
  repeat (destruct Hd as [-> | Hd]; [reflexivity|]). now rewrite Hd.
Qed.

(** Between 100000 and 999999 the decimal form has six characters, all
    digits. *)
Lemma toString_six_digits n :
  100000 <= n <= 999999 ->
  String.length (JS.toString n) = 6%nat /\ JS.allDigits (JS.toString n) = true.
Proof.
  intros Hn. unfold JS.toString.
  replace (n <? 0) with false by (symmetry; apply Z.ltb_ge; lia).
  assert (H1 : 10000 <= n / 10 < 100000) by (apply div10_bounds; lia).
  assert (H2 : 1000 <= n / 10 / 10 < 10000) by (apply div10_bounds; lia).
  assert (H3 : 100 <= n / 10 / 10 / 10 < 1000) by (apply div10_bounds; lia).
  assert (H4 : 10 <= n / 10 / 10 / 10 / 10 < 100)
    by (apply div10_bounds; lia).
  assert (H5 : 1 <= n / 10 / 10 / 10 / 10 / 10 < 10)
    by (apply div10_bounds; lia).
  assert (H6 : n / 10 / 10 / 10 / 10 / 10 / 10 = 0)
    by (apply Z.div_small; lia).
  change 21%nat with (S (S (S (S (S (S 15%nat)))))).
  do 5 (rewrite decimal_more by lia).
  rewrite decimal_last by exact H6.
  split; [reflexivity|].
  cbn [JS.allDigits]. now rewrite !digitChar_isDigit.
Qed.

Lemma otp_in_range r :
  (0 <= r)%Q -> (r < 1)%Q ->
  100000 <= Qfloor (100000 + r * 900000) <= 999999.
Proof.
  intros H0 H1. split.
  - change 100000 with (Qfloor (inject_Z 100000)) at 1.
    apply Qfloor_resp_le.
    setoid_replace (inject_Z 100000) with (100000 + 0 * 900000)%Q by ring.
    apply Qplus_le_r. apply Qmult_le_compat_r; [exact H0 | discriminate].
  - assert (Hlt : Qfloor (100000 + r * 900000) < 1000000); [|lia].
    rewrite Zlt_Qlt.
    apply Qle_lt_trans with (100000 + r * 900000)%Q; [apply Qfloor_le|].
    setoid_replace (inject_Z 1000000) with (100000 + 1 * 900000)%Q by ring.
    apply Qplus_lt_r. apply Qmult_lt_compat_r; [reflexivity | exact H1].
Qed.

(** The code a registration stores and mails: six decimal digits, the
    decimal form of an integer between 100000 and 999999. *)
Lemma generateOtp_six_digits r :
  (0 <= r)%Q -> (r < 1)%Q ->
  exists n,
    generateOtp r = JS.toString n
    /\ 100000 <= n <= 999999
    /\ String.length (generateOtp r) = 6%nat
    /\ JS.allDigits (generateOtp r) = true.
Proof.
  intros H0 H1. exists (Qfloor (100000 + r * 900000)).
  pose proof (otp_in_range r H0 H1) as Hr.
  split; [reflexivity|]. split; [exact Hr|].
  now apply toString_six_digits.
Qed.

(** ** Registration *)

Section Registration.
Context {bcryptLib : BcryptLib} {jwtLib : JwtLib} {services : Services}
  {config : Config}.


Lemma shop_create_inv a f db d db' :
  Shop.create a f db = inr (d, db') ->
  exists n e p ad z,
    Shop.f_name f = Some n /\ Shop.f_email f = Some e
    /\ Shop.f_password f = Some p
    /\ Shop.f_address f = Some ad /\ Shop.f_zipCode f = Some z
    /\ Shop.doc d
       = {| Shop._id := freshId a; Shop.name := JS.trim n;
            Shop.email := JS.toLowerCase e;
            Shop.password := Some (bcrypt_hashString p (salt a));
            Shop.address := ad; Shop.zipCode := z;
            Shop.role := Shop.f_role f; Shop.avatar := Shop.f_avatar f;
            Shop.verificationOtp := Some (Shop.f_verificationOtp f);
            Shop.verificationOtpExpiry :=
              Some (Shop.f_verificationOtpExpiry f);
            Shop.isVerified := Shop.f_isVerified f |}
    /\ db' = (db ++ [Shop.doc d])%list.
Proof.
  unfold Shop.create.
  destruct (Shop.f_name f) as [n|]; [|discriminate].
  destruct (Shop.f_email f) as [e|]; [|discriminate].
  destruct (Shop.f_password f) as [p|]; [|discriminate].
  destruct (Shop.f_address f) as [ad|]; [|discriminate].
  destruct (Shop.f_zipCode f) as [z|]; [|discriminate].
  destruct (Shop.validate f); [|discriminate].
  unfold Shop.save, Shop.preSave, hookOutcome. simpl. intros Hc.
  injection Hc as <- <-. exists n, e, p, ad, z. repeat split.
Qed.

(** The ways [createUser] ends for an e-mail that is not taken. *)
Lemma createUser_shapes a req db r db' tr :
  User.findOne false (UserController.c_email req) db = None ->
  UserController.createUser a req db = (r, db', tr) ->
  (exists image err,
      JS.present (UserController.c_avatar req) = Some image
      /\ cloudinary_upload image "avatars" = inl err
      /\ tr = [] /\ db' = db
      /\ r = NextError {| message := err; statusCode := 400 |})
  \/ (exists m err,
         sendMail m = Some err
         /\ tr = [MailAttempt m false] /\ db' = db
         /\ r = NextError {| message := err; statusCode := 500 |})
  \/ (exists m err,
         sendMail m = None
         /\ tr = [MailAttempt m true] /\ db' = db
         /\ r = NextError {| message := err; statusCode := 500 |})
  \/ (exists m f d resp,
         sendMail m = None
         /\ User.create a f db = inr (d, db')
         /\ User.f_verificationOtp f = generateOtp (random a)
         /\ User.f_verificationOtpExpiry f = otpExpiryAt (now a)
         /\ User.f_isVerified f = false
         /\ tr = [MailAttempt m true; Created (User._id (User.doc d))]
         /\ r = Done resp /\ status resp = 201
         /\ User.f_email f = UserController.c_email req
         /\ User.f_password f = UserController.c_password req).
Proof.
  intros Hfree. unfold UserController.createUser. rewrite Hfree.
  destruct (JS.present (UserController.c_avatar req)) as [image|] eqn:Eav.
  - destruct (cloudinary_upload image "avatars") as [err|av] eqn:Eup.
    + intros Hrun. injection Hrun as <- <- <-. left.
      exists image, err. repeat split; assumption.
    + match goal with |- context [sendMail ?m] =>
        destruct (sendMail m) as [err|] eqn:Email end.
      * intros Hrun. injection Hrun as <- <- <-. right. left.
        eexists _, err. repeat split. exact Email.
      * match goal with |- context [User.create a ?f db] =>
          destruct (User.create a f db) as [err|[d dbn]] eqn:Ecr end;
          intros Hrun; injection Hrun as <- <- <-.
        -- right. right. left. eexists _, err. repeat split. exact Email.
        -- right. right. right. eexists _, _, d, _.
           split; [exact Email|]. split; [exact Ecr|]. repeat split.
  - match goal with |- context [sendMail ?m] =>
      destruct (sendMail m) as [err|] eqn:Email end.
    + intros Hrun. injection Hrun as <- <- <-. right. left.
      eexists _, err. repeat split. exact Email.
    + match goal with |- context [User.create a ?f db] =>
        destruct (User.create a f db) as [err|[d dbn]] eqn:Ecr end;
        intros Hrun; injection Hrun as <- <- <-.
      * right. right. left. eexists _, err. repeat split. exact Email.
      * right. right. right. eexists _, _, d, _.
        split; [exact Email|]. split; [exact Ecr|]. repeat split.
Qed.

(** The ways [createShop] ends for an e-mail that is not taken. *)
Lemma createShop_shapes a req db r db' tr :
  Shop.findOne false (ShopController.c_email req) db = None ->
  ShopController.createShop a req db = (r, db', tr) ->
  (exists m err,
      sendMail m = Some err
      /\ tr = [MailAttempt m false] /\ db' = db
      /\ r = NextError {| message := err; statusCode := 500 |})
  \/ (exists m err,
         sendMail m = None
         /\ tr = [MailAttempt m true] /\ db' = db
         /\ r = NextError {| message := err; statusCode := 500 |})
  \/ (exists m f d resp,
         sendMail m = None
         /\ Shop.create a f db = inr (d, db')
         /\ Shop.f_verificationOtp f = generateOtp (random a)
         /\ Shop.f_verificationOtpExpiry f = otpExpiryAt (now a)
         /\ Shop.f_isVerified f = false
         /\ tr = [MailAttempt m true; Created (Shop._id (Shop.doc d))]
         /\ r = Done resp /\ status resp = 201
         /\ Shop.f_email f = ShopController.c_email req
         /\ Shop.f_password f = ShopController.c_password req).
Proof.
  intros Hfree. unfold ShopController.createShop. rewrite Hfree.
  match goal with |- context [sendMail ?m] =>
    destruct (sendMail m) as [err|] eqn:Email end.
  - intros Hrun. injection Hrun as <- <- <-. left.
    eexists _, err. repeat split. exact Email.
  - match goal with |- context [Shop.create a ?f db] =>
      destruct (Shop.create a f db) as [err|[d dbn]] eqn:Ecr end;
      intros Hrun; injection Hrun as <- <- <-.
    + right. left. eexists _, err. repeat split. exact Email.
    + right. right. eexists _, _, d, _.
      split; [exact Email|]. split; [exact Ecr|]. repeat split.
Qed.



Lemma dispatched_before_two m id :
  dispatchedBeforePersisted [MailAttempt m true; Created id].
Proof.
  intros pre id' post Heq.
  destruct pre as [|x [|y pre]]; simpl in Heq.
  - discriminate.
  - injection Heq as Hx _ _. exists m. left. now symmetry.
  - injection Heq as _ _ Heq. now destruct pre.
Qed.

Lemma dispatched_before_none tr :
  ~ persisted tr -> dispatchedBeforePersisted tr.
Proof.
  intros Hno pre id post ->. exfalso. apply Hno. exists id.
  apply in_or_app. right. now left.
Qed.

(** A trace whose only effect is a mail attempt. *)
Lemma not_persisted_mail_only m delivered :
  ~ persisted [MailAttempt m delivered].
Proof.
  intros [id [Hin | []]]. discriminate.
Qed.

(** C6.  For a registration of either variant whose e-mail is not taken:
    an account is persisted only after a mail was delivered, and the
    collection changes only by that; when the dispatch of the OTP mail
    fails, the handler fails with DeliveryFailed (status 500), nothing is
    persisted and the collection is as it was; and a transport that rejects
    every mail makes the dispatch fail for every such request (for the
    end-user variant, once the avatar upload, if any, went through). *)
Theorem register_dispatches_before_persisting :
  (forall a req db r db' tr,
      User.findOne false (UserController.c_email req) db = None ->
      UserController.createUser a req db = (r, db', tr) ->
      dispatchedBeforePersisted tr
      /\ (~ persisted tr -> db' = db)
      /\ (dispatchFailed tr ->
          db' = db /\ ~ persisted tr
          /\ exists err, r = NextError err /\ DeliveryFailed err)
      /\ ((forall m, sendMail m <> None) ->
          (forall image,
              JS.present (UserController.c_avatar req) = Some image ->
              exists av, cloudinary_upload image "avatars" = inr av) ->
          dispatchFailed tr))
  /\ (forall a req db r db' tr,
      Shop.findOne false (ShopController.c_email req) db = None ->
      ShopController.createShop a req db = (r, db', tr) ->
      dispatchedBeforePersisted tr
      /\ (~ persisted tr -> db' = db)
      /\ (dispatchFailed tr ->
          db' = db /\ ~ persisted tr
          /\ exists err, r = NextError err /\ DeliveryFailed err)
      /\ ((forall m, sendMail m <> None) -> dispatchFailed tr)).
Proof.
  split; intros a req db r db' tr Hfree Hrun.
  - destruct (createUser_shapes a req db r db' tr Hfree Hrun)
      as [(image & err & Hav & Hup & -> & -> & ->)
         |[(m & err & Hm & -> & -> & ->)
          |[(m & err & Hm & -> & -> & ->)
           |(m & f & d & resp & Hm & Hcr & _ & _ & _ & -> & -> & _)]]].
    + split; [apply dispatched_before_none; now intros [id []]|].
      split; [reflexivity|].
      split; [now intros [m []]|].
      intros _ Hupload. destruct (Hupload image Hav) as [av Hok]. congruence.
    + split; [apply dispatched_before_none, not_persisted_mail_only|].
      split; [reflexivity|].
      split.
      * intros _. split; [reflexivity|].
        split; [apply not_persisted_mail_only|].
        eexists. split; reflexivity.
      * intros _ _. exists m. now left.
    + split; [apply dispatched_before_none, not_persisted_mail_only|].
      split; [reflexivity|].
      split.
      * intros [m' [Hin | []]]. discriminate.
      * intros Hdown _. now destruct (Hdown m).
    + split; [apply dispatched_before_two|].
      split.
      * intros Hno. exfalso. apply Hno. eexists. right. now left.
      * split.
        -- intros [m' [Hin | [Hin | []]]]; discriminate.
        -- intros Hdown _. now destruct (Hdown m).
  - destruct (createShop_shapes a req db r db' tr Hfree Hrun)
      as [(m & err & Hm & -> & -> & ->)
         |[(m & err & Hm & -> & -> & ->)
          |(m & f & d & resp & Hm & Hcr & _ & _ & _ & -> & -> & _)]].
    + split; [apply dispatched_before_none, not_persisted_mail_only|].
      split; [reflexivity|].
      split.
      * intros _. split; [reflexivity|].
        split; [apply not_persisted_mail_only|].
        eexists. split; reflexivity.
      * intros _. exists m. now left.
    + split; [apply dispatched_before_none, not_persisted_mail_only|].
      split; [reflexivity|].
      split.
      * intros [m' [Hin | []]]. discriminate.
      * intros Hdown. now destruct (Hdown m).
    + split; [apply dispatched_before_two|].
      split.
      * intros Hno. exfalso. apply Hno. eexists. right. now left.
      * split.
        -- intros [m' [Hin | [Hin | []]]]; discriminate.
        -- intros Hdown. now destruct (Hdown m).
Qed.

End Registration.

(** ** The stored password hash *)

Section PasswordHash.
Context {bcryptLib : BcryptLib} {jwtLib : JwtLib} {services : Services}
  {config : Config}.



Lemma user_save_modified a d db p :
  User.isModified "password" d = true ->
  User.password (User.doc d) = Some p ->
  exists d',
    User.save a d db
    = inr (d',
           User.persist
             (User.set_password (Some (bcrypt_hashString p (salt a))) d) db)
    /\ User.password (User.doc d') = Some (bcrypt_hashString p (salt a)).
Proof.
  intros Hm Hp. unfold User.save, User.preSave. rewrite Hm, Hp. simpl.
  eexists. split; reflexivity.
Qed.



End PasswordHash.

(** ** The auth middleware *)

Lemma split_no_separator sep s :
  JS.hasChar sep s = false -> JS.split sep s = [s].
Proof.
  induction s as [|c r IH]; simpl; [reflexivity|].
  intros Hno. apply orb_false_iff in Hno. destruct Hno as [Hc Hr].
  now rewrite Hc, (IH Hr).
Qed.

Lemma includes_In roles role :
  JS.includes roles (Some role) = true <-> In role roles.
Proof.
  simpl. rewrite existsb_exists. split.
  - intros (x & Hin & Heq). apply String.eqb_eq in Heq. now subst.
  - intros Hin. exists role. split; [exact Hin | apply String.eqb_refl].
Qed.

Lemma roleEnum_nonempty role : In role User.roleEnum -> role <> "".
Proof.
  unfold User.roleEnum. simpl. intros Hin.
  repeat (destruct Hin as [<- | Hin]; [discriminate|]). destruct Hin.
Qed.

Section Middleware.
Context {bcryptLib : BcryptLib} {jwtLib : JwtLib} {services : Services}
  {config : Config}.

Lemma sellerToken_cookie req t :
  JS.present (Auth.cookies_seller_token req) = Some t ->
  Auth.sellerToken req = Auth.cookies_seller_token req.
Proof.
  unfold Auth.sellerToken. intros Hc.
  destruct (Auth.cookies_seller_token req) as [c|]; [|discriminate].
  simpl in *. destruct (String.eqb c ""); [discriminate|].
  now destruct (Auth.headers_authorization req).
Qed.

Lemma sellerToken_bearer req t :
  JS.falsy (Auth.cookies_seller_token req) = true ->
  Auth.headers_authorization req = Some ("Bearer " ++ t) ->
  JS.hasChar " " t = false ->
  Auth.sellerToken req = Some t.
Proof.
  unfold Auth.sellerToken. intros Hc -> Hno. rewrite Hc.
  simpl. rewrite (split_no_separator _ _ Hno).
  now replace (JS.startsWith "" t) with true by (now destruct t).
Qed.




End Middleware.

(** C9.  For every allow-list and every request whose principal has one of
    the roles of the schema, the gate made from the list fails with 403 and
    a message that starts with the principal's role when the role is not in
    the list, and goes on when it is; a principal of role [user] at a gate
    for [Admin] is refused with a 403 that names [user]. *)
Theorem isAdmin_allows_listed_roles_only :
  (forall roles req u,
      Auth.req_user req = Some u ->
      In (User.role (User.doc u)) User.roleEnum ->
      (~ In (User.role (User.doc u)) roles ->
       exists err,
         Auth.isAdmin roles req = NextError err
         /\ Forbidden err
         /\ message err
            = User.role (User.doc u)
              ++ " is not allowed to access this resource!")
      /\ (In (User.role (User.doc u)) roles ->
          Auth.isAdmin roles req = Done tt))
  /\ (forall req u,
      Auth.req_user req = Some u ->
      User.role (User.doc u) = "user" ->
      Auth.isAdmin ["Admin"] req
      = NextError
          {| message := "user is not allowed to access this resource!";
             statusCode := 403 |}).
Proof.
  split.
  - intros roles req u Hu Hrole. unfold Auth.isAdmin. rewrite Hu.
    cbn [option_map]. split.
    + intros Hout.
      destruct (JS.includes roles (Some (User.role (User.doc u)))) eqn:Einc.
      { apply includes_In in Einc. contradiction. }
      cbn [negb]. eexists. split; [reflexivity|]. split; [reflexivity|].
      cbn [message JS.or_else].
      apply roleEnum_nonempty, String.eqb_neq in Hrole. now rewrite Hrole.
    + intros Hin. apply includes_In in Hin. now rewrite Hin.
  - intros req u Hu Hrole. unfold Auth.isAdmin. rewrite Hu.
    cbn [option_map]. now rewrite Hrole.
Qed.

(** ** The shop hook on a save that leaves the password alone *)

Section ShopHook.
Context {bcryptLib : BcryptLib} {jwtLib : JwtLib} {services : Services}
  {config : Config}.


(** Activation of a pending shop, then a login with a password bcryptjs
    accepts against the stored hash. *)
Lemma shop_activate_then_login a a' req login db e code expiry u h p :
  Mongo.uniqueIds Shop._id db ->
  JS.supplied (ShopController.a_email req) e ->
  JS.supplied (ShopController.a_otp req) code ->
  Shop.byEmail e db = Some u ->
  Shop.pendingOtp u code expiry ->
  now a <= expiry ->
  Shop.password u = Some h ->
  JS.supplied (ShopController.l_email login) e ->
  JS.supplied (ShopController.l_password login) p ->
  bcrypt_compareString p h = true ->
  exists r db' u',
    ShopController.activation a req db = (Done r, db')
    /\ map Shop.password db' = map Shop.password db
    /\ Shop.byEmail e db' = Some u'
    /\ Shop.isVerified u' = true
    /\ Shop.password u' = Some h
    /\ exists session,
        ShopController.loginShop a' login db' = Done session
        /\ status session = 201.
Proof.
  intros Hnd He Hc Hu Hp Hnow Hh Hle Hlp Hcmp.
  destruct (shop_activation_succeeds a req db e code expiry u
              Hnd He Hc Hu Hp Hnow)
    as (r & db' & Hrun & _ & Hu' & _ & Hpw).
  exists r, db', (Shop.activated u).
  split; [exact Hrun|]. split; [exact Hpw|]. split; [exact Hu'|].
  split; [reflexivity|]. split; [exact Hh|].
  rewrite (shop_login_verified a' login db' e p (Shop.activated u) h
             Hle Hlp Hu' eq_refl Hh).
  rewrite Hcmp. eexists. split; reflexivity.
Qed.

(** C10, as the code has it.  The not-modified branch of the shop hook
    calls [next] and does not return, so the hashing statement still runs;
    but the save was handed on by that call, with the document as it was.
    So the activation of a shop in the pending-otp state succeeds and leaves
    every stored password hash as it was, and a login afterwards with a
    password that bcryptjs accepts against that hash succeeds with status
    201; in particular, with a bcryptjs that accepts a password hashed from
    it, a shop that registered, then activated with the code mailed to it,
    logs in with the password it registered. *)
Theorem shop_activation_keeps_hash_and_login_succeeds :
  (forall a d,
      Shop.isModified "password" d = false ->
      handedOn (Shop.preSave a d) = Some d
      /\ settled (Shop.preSave a d)
         = match bcrypt_hash (Shop.password (Shop.doc d)) (salt a) with
           | inl err => inl err
           | inr h => inr (Shop.set_password (Some h) d)
           end)
  /\ (forall a a' req login db e code expiry u h p,
      Mongo.uniqueIds Shop._id db ->
      JS.supplied (ShopController.a_email req) e ->
      JS.supplied (ShopController.a_otp req) code ->
      Shop.byEmail e db = Some u ->
      Shop.pendingOtp u code expiry ->
      now a <= expiry ->
      Shop.password u = Some h ->
      JS.supplied (ShopController.l_email login) e ->
      JS.supplied (ShopController.l_password login) p ->
      bcrypt_compareString p h = true ->
      exists r db' u',
        ShopController.activation a req db = (Done r, db')
        /\ map Shop.password db' = map Shop.password db
        /\ Shop.byEmail e db' = Some u'
        /\ Shop.isVerified u' = true
        /\ Shop.password u' = Some h
        /\ exists session,
            ShopController.loginShop a' login db' = Done session
            /\ status session = 201)
  /\ (bcrypt_sound ->
      forall a0 a1 a2 reg db0 r0 db1 tr e p,
        Mongo.uniqueIds Shop._id db0 ->
        ~ In (freshId a0) (map Shop._id db0) ->
        (0 <= random a0)%Q -> (random a0 < 1)%Q ->
        JS.supplied (ShopController.c_email reg) e ->
        JS.supplied (ShopController.c_password reg) p ->
        ShopController.createShop a0 reg db0 = (Done r0, db1, tr) ->
        now a1 <= now a0 + 600000 ->
        exists r1 db2 session,
          ShopController.activation a1
            {| ShopController.a_email := Some e;
               ShopController.a_otp := Some (generateOtp (random a0)) |}
            db1 = (Done r1, db2)
          /\ map Shop.password db2 = map Shop.password db1
          /\ ShopController.loginShop a2
               {| ShopController.l_email := Some e;
                  ShopController.l_password := Some p |}
               db2 = Done session
          /\ status session = 201).
Proof.
  split; [|split].
  - intros a d Hm. unfold Shop.preSave. rewrite Hm. cbn [negb].
    now destruct (bcrypt_hash (Shop.password (Shop.doc d)) (salt a)).
  - apply shop_activate_then_login.
  - intros Hbcrypt a0 a1 a2 reg db0 r0 db1 tr e p
      Hnd Hfresh Hr0 Hr1 He Hp Hreg Hnow.
    destruct (Shop.findOne false (ShopController.c_email reg) db0) eqn:Efree.
    { unfold ShopController.createShop in Hreg. rewrite Efree in Hreg.
      discriminate. }
    destruct (createShop_shapes a0 reg db0 _ db1 tr Efree Hreg)
      as [(? & ? & _ & _ & _ & Hbad)
         |[(? & ? & _ & _ & _ & Hbad)
          |(m & f & d & resp & _ & Hcr & Hotp & Hexp & Hver & _ & _ & _
            & Hfe & Hfp)]];
      try discriminate.
    destruct (shop_create_inv a0 f db0 d db1 Hcr)
      as (n & e' & p' & ad & z & _ & Hfe' & Hfp' & _ & _ & Hdoc & ->).
    destruct He as [He Hene]. destruct Hp as [Hp Hpne].
    assert (e' = e) as -> by congruence.
    assert (p' = p) as -> by congruence.
    assert (Hcode : generateOtp (random a0) <> "").
    { destruct (generateOtp_six_digits (random a0) Hr0 Hr1)
        as (_ & _ & _ & Hlen & _).
      intros Hempty. now rewrite Hempty in Hlen. }
    assert (Hfound : Shop.byEmail e (db0 ++ [Shop.doc d]) = Some (Shop.doc d)).
    { unfold Shop.byEmail. apply find_app_last.
      - unfold Shop.findOne in Efree. rewrite He in Efree.
        unfold Shop.byEmail in Efree.
        now destruct (find _ db0).
      - rewrite Hdoc. simpl. apply String.eqb_refl. }
    destruct (shop_activate_then_login a1 a2
                {| ShopController.a_email := Some e;
                   ShopController.a_otp := Some (generateOtp (random a0)) |}
                {| ShopController.l_email := Some e;
                   ShopController.l_password := Some p |}
                (db0 ++ [Shop.doc d]) e (generateOtp (random a0))
                (now a0 + 600000) (Shop.doc d)
                (bcrypt_hashString p (salt a0)) p)
      as (r1 & db2 & u' & Hrun & Hpw & _ & _ & _ & session & Hlogin & Hst).
    + apply uniqueIds_app_last; [exact Hnd|]. now rewrite Hdoc.
    + now split.
    + now split.
    + exact Hfound.
    + rewrite Hdoc. simpl. rewrite Hotp, Hexp, Hver. repeat split.
    + exact Hnow.
    + now rewrite Hdoc.
    + now split.
    + now split.
    + apply Hbcrypt.
    + exists r1, db2, session. repeat split; assumption.
Qed.

End ShopHook.

(** ** The handlers run on the sample data *)

Lemma stripPrefix_app p s : Sample.stripPrefix p (p ++ s) = Some s.
Proof.
  induction p as [|c p IH]; simpl; [reflexivity|].
  now rewrite Ascii.eqb_refl.
Qed.

Lemma stripPrefix_app2 p q s :
  Sample.stripPrefix (p ++ q) (p ++ q ++ s) = Some s.
Proof.
  induction p as [|c p IH]; cbn [append Sample.stripPrefix].
  - apply stripPrefix_app.
  - now rewrite Ascii.eqb_refl.
Qed.

Lemma sample_jwt_sound : jwt_sound (H := Sample.jwt).
Proof.
  intros id secret expiresIn clock later _.
  cbn [jwt_verify jwt_sign Sample.jwt].
  now rewrite stripPrefix_app2.
Qed.

Lemma sample_bcrypt_sound : bcrypt_sound (H := Sample.bcrypt).
Proof.
  intros s slt. simpl. apply String.eqb_refl.
Qed.

Ltac sample_fact :=
  first
    [ reflexivity
    | discriminate
    | split; [reflexivity | discriminate]
    | repeat split; reflexivity
    | constructor; [intros [] | constructor]
    | simpl; lia
    | intros [H | []]; discriminate H ].

Section Runs.

#[local] Existing Instance Sample.bcrypt.
#[local] Existing Instance Sample.jwt.
#[local] Existing Instance Sample.services.
#[local] Existing Instance Sample.config.

(** Activation of the two sample accounts, and the same request again. *)
Lemma activation_verifies_then_refuses_repeat_witness :
  (exists r db',
      UserController.activation Sample.ambient Sample.aliceActivation
        [Sample.alice] = (Done r, db')
      /\ exists err,
          UserController.activation Sample.ambient Sample.aliceActivation db'
          = (NextError err, db')
          /\ AlreadyVerified err)
  /\ (exists r db',
      ShopController.activation Sample.ambient Sample.cornerActivation
        [Sample.corner] = (Done r, db')
      /\ exists err,
          ShopController.activation Sample.ambient Sample.cornerActivation db'
          = (NextError err, db')
          /\ AlreadyVerified err).
Proof.
  split.
  - destruct (proj1 activation_verifies_then_refuses_repeat
                Sample.ambient Sample.ambient Sample.aliceActivation
                [Sample.alice] "alice@example.com" "123456" 1600000
                Sample.alice)
      as (r & db' & u' & Hrun & _ & _ & _ & _ & _ & Hagain);
      try sample_fact.
    exists r, db'. split; assumption.
  - destruct (proj2 activation_verifies_then_refuses_repeat
                Sample.ambient Sample.ambient Sample.cornerActivation
                [Sample.corner] "corner@example.com" "123456" 1600000
                Sample.corner)
      as (r & db' & u' & Hrun & _ & _ & _ & _ & _ & Hagain);
      try sample_fact.
    exists r, db'. split; assumption.
Defined.

(** A wrong code for [alice], and the right code for [corner] too late. *)
Lemma activation_rejects_wrong_or_expired_otp_witness :
  (exists err,
      UserController.activation Sample.ambient
        {| UserController.a_email := Some "alice@example.com";
           UserController.a_otp := Some "000000" |}
        [Sample.alice] = (NextError err, [Sample.alice])
      /\ InvalidOrExpiredOtp err)
  /\ (exists err,
      ShopController.activation
        {| now := 1600001; random := 1 # 2; salt := "s"; freshId := "id2" |}
        Sample.cornerActivation
        [Sample.corner] = (NextError err, [Sample.corner])
      /\ InvalidOrExpiredOtp err).
Proof.
  split.
  - apply (proj1 activation_rejects_wrong_or_expired_otp
             Sample.ambient _ [Sample.alice] "alice@example.com" "000000"
             "123456" 1600000 Sample.alice); try sample_fact.
    left. discriminate.
  - apply (proj2 activation_rejects_wrong_or_expired_otp
             _ Sample.cornerActivation [Sample.corner] "corner@example.com"
             "123456" "123456" 1600000 Sample.corner); try sample_fact.
    right. split; [reflexivity | simpl; lia].
Defined.


(** Logins of the two unverified sample accounts. *)
Lemma login_unverified_fails_whatever_the_password_witness :
  (exists err,
      UserController.loginUser Sample.ambient Sample.aliceLogin [Sample.alice]
      = NextError err /\ NotVerified err)
  /\ (exists err,
      ShopController.loginShop Sample.ambient Sample.cornerLogin
        [Sample.corner]
      = NextError err /\ NotVerified err).
Proof.
  split.
  - apply (proj1 login_unverified_fails_whatever_the_password
             Sample.ambient Sample.aliceLogin [Sample.alice]
             "alice@example.com" "secret1" Sample.alice); sample_fact.
  - apply (proj2 login_unverified_fails_whatever_the_password
             Sample.ambient Sample.cornerLogin [Sample.corner]
             "corner@example.com" "secret1" Sample.corner); sample_fact.
Defined.

(** Logins of the two verified sample accounts with their password. *)
Lemma login_checks_password_and_token_round_trips_witness :
  sessionFor "token" "u1" 1000000
    (UserController.loginUser Sample.ambient Sample.aliceLogin
       [Sample.aliceVerified])
  /\ sessionFor "seller_token" "s1" 1000000
       (ShopController.loginShop Sample.ambient Sample.cornerLogin
          [Sample.cornerVerified]).
Proof.
  split.
  - apply (proj1 (login_checks_password_and_token_round_trips
                    sample_jwt_sound)
             Sample.ambient Sample.aliceLogin [Sample.aliceVerified]
             "alice@example.com" "secret1" Sample.aliceVerified
             "$2a$10$secret1"); sample_fact.
  - apply (proj2 (login_checks_password_and_token_round_trips
                    sample_jwt_sound)
             Sample.ambient Sample.cornerLogin [Sample.cornerVerified]
             "corner@example.com" "secret1" Sample.cornerVerified
             "$2a$10$secret1"); sample_fact.
Defined.

(** A registration while the transport is down. *)
Lemma register_dispatches_before_persisting_witness :
  dispatchFailed
    (snd (UserController.createUser (services := Sample.servicesDown)
            Sample.ambient Sample.bobRegistration [Sample.alice])).
Proof.
  apply (proj1 (register_dispatches_before_persisting
                  (services := Sample.servicesDown))
           Sample.ambient Sample.bobRegistration [Sample.alice]
           _ _ _ eq_refl eq_refl).
  - intros m. discriminate.
  - intros image. discriminate.
Defined.



(** [alice], of role [user], at the gate for [Admin]. *)
Lemma isAdmin_allows_listed_roles_only_witness :
  exists err,
    Auth.isAdmin ["Admin"] Sample.aliceRequest = NextError err
    /\ Forbidden err
    /\ message err = "user is not allowed to access this resource!".
Proof.
  apply (proj1 isAdmin_allows_listed_roles_only ["Admin"] Sample.aliceRequest
           (User.loaded false Sample.aliceVerified) eq_refl).
  - now left.
  - sample_fact.
Defined.

(** Activation of [corner], then a login with its password; and the
    registration of [depot], its activation and its login. *)
Lemma shop_activation_keeps_hash_and_login_succeeds_witness :
  (exists r db',
      ShopController.activation Sample.ambient Sample.cornerActivation
        [Sample.corner] = (Done r, db')
      /\ map Shop.password db' = [Some "$2a$10$secret1"]
      /\ exists session,
          ShopController.loginShop Sample.ambient Sample.cornerLogin db'
          = Done session
          /\ status session = 201)
  /\ (exists r1 db2 session,
      ShopController.activation Sample.ambient Sample.depotActivation
        (snd (fst (ShopController.createShop Sample.ambient
                     Sample.depotRegistration [Sample.corner])))
      = (Done r1, db2)
      /\ ShopController.loginShop Sample.ambient Sample.depotLogin db2
         = Done session
      /\ status session = 201).
Proof.
  split.
  - destruct (proj1 (proj2 shop_activation_keeps_hash_and_login_succeeds)
                Sample.ambient Sample.ambient Sample.cornerActivation
                Sample.cornerLogin [Sample.corner] "corner@example.com"
                "123456" 1600000 Sample.corner "$2a$10$secret1" "secret1")
      as (r & db' & u' & Hrun & Hpw & _ & _ & _ & Hlogin); try sample_fact.
    exists r, db'. repeat split; assumption.
  - edestruct (proj2 (proj2 shop_activation_keeps_hash_and_login_succeeds)
                 sample_bcrypt_sound
                 Sample.ambient Sample.ambient Sample.ambient
                 Sample.depotRegistration [Sample.corner])
      as (r1 & db2 & session & Hrun & _ & Hlogin & Hst);
      try sample_fact.
    exists r1, db2, session. split; [exact Hrun|]. split; assumption.
Defined.



(** C10 as stated fails: a shop registers with [secret1], activates with
    the code mailed to it, and logs in with [secret1].  The activation saves
    the document, the stored hash after it is the hash stored at
    registration, and the login is answered with a session, not passed to
    [next] as InvalidCredentials. *)
Lemma shop_login_after_activation_is_accepted :
  let registered :=
    snd (fst (ShopController.createShop Sample.ambient
                Sample.depotRegistration [])) in
  let activation :=
    ShopController.activation Sample.ambient Sample.depotActivation
      registered in
  let login :=
    ShopController.loginShop Sample.ambient Sample.depotLogin
      (snd activation) in
  map Shop.password registered = [Some "$2a$10$secret1"]
  /\ fst activation
     = Done {| status := 201; cookies := [("seller_token", "k.id2")];
               body := Session "id2" "k.id2" |}
  /\ map Shop.isVerified (snd activation) = [true]
  /\ map Shop.password (snd activation) = [Some "$2a$10$secret1"]
  /\ login
     = Done {| status := 201; cookies := [("seller_token", "k.id2")];
               body := Session "id2" "k.id2" |}
  /\ (forall err, InvalidCredentials err -> login <> NextError err).
Proof.
  vm_compute. repeat split. intros err _. discriminate.
Qed.

End Runs.

(** ** Resend-otp *)

Lemma falsy_false_supplied v :
  JS.falsy v = false -> exists s, JS.supplied v s.
Proof.
  destruct v as [s|]; simpl; [|discriminate].
  intros Hs. exists s. split; [reflexivity|]. now apply String.eqb_neq.
Qed.

Section ResendFacts.
Context {bcryptLib : BcryptLib} {jwtLib : JwtLib} {services : Services}
  {config : Config}.

Lemma user_loaded_identity wp u :
  User.email (User.doc (User.loaded wp u)) = User.email u
  /\ User.name (User.doc (User.loaded wp u)) = User.name u.
Proof. destruct wp, u; split; reflexivity. Qed.

Lemma shop_loaded_identity wp u :
  Shop.email (Shop.doc (Shop.loaded wp u)) = Shop.email u
  /\ Shop.name (Shop.doc (Shop.loaded wp u)) = Shop.name u.
Proof. destruct wp, u; split; reflexivity. Qed.

Lemma resendUserOtp_reissues a req db e u :
  Mongo.uniqueIds User._id db ->
  JS.supplied (ResendOtp.r_email req) e ->
  User.byEmail e db = Some u ->
  User.isVerified u = false ->
  exists r db' m delivered,
    ResendOtp.resendUserOtp a req db = (r, db', [MailAttempt m delivered])
    /\ User.byEmail e db'
       = Some (ResendOtp.userReissued (generateOtp (random a))
                 (now a + 600000) u)
    /\ Mongo.uniqueIds User._id db'
    /\ map User.password db' = map User.password db
    /\ mail_email m = Some (User.email u)
    /\ (if delivered
        then sendMail m = None
             /\ exists resp, r = Done resp /\ status resp = 200
        else sendMail m <> None
             /\ r = NextError {| message := "Failed to send OTP email";
                                 statusCode := 500 |}).
Proof.
  intros Hnd He Hu Hv.
  unfold ResendOtp.resendUserOtp.
  rewrite (supplied_falsy _ _ He). cbv iota.
  rewrite (user_findOne_byEmail false _ _ _ _ He Hu).
  destruct (user_loaded_paths false u) as (-> & _). rewrite Hv. cbv iota.
  cbv zeta. rewrite user_save_unmodified by reflexivity.
  assert (Hfound :
    User.byEmail e
      (User.persist
         (User.set_verificationOtpExpiry (Some (otpExpiryAt (now a)))
            (User.set_verificationOtp (Some (generateOtp (random a)))
               (User.loaded false u))) db)
    = Some (ResendOtp.userReissued (generateOtp (random a))
              (now a + 600000) u)).
  { unfold User.persist. simpl User.isNew. cbv iota.
    unfold User.byEmail in *.
    erewrite (updateOne_find User._id _ _ u db Hnd Hu); [reflexivity|].
    apply find_some in Hu. exact (proj2 Hu). }
  assert (Hids :
    Mongo.uniqueIds User._id
      (User.persist
         (User.set_verificationOtpExpiry (Some (otpExpiryAt (now a)))
            (User.set_verificationOtp (Some (generateOtp (random a)))
               (User.loaded false u))) db)).
  { unfold User.persist. simpl User.isNew. cbv iota.
    apply updateOne_uniqueIds; [reflexivity | exact Hnd]. }
  assert (Hpw :
    map User.password
      (User.persist
         (User.set_verificationOtpExpiry (Some (otpExpiryAt (now a)))
            (User.set_verificationOtp (Some (generateOtp (random a)))
               (User.loaded false u))) db)
    = map User.password db).
  { unfold User.persist. simpl User.isNew. cbv iota.
    now apply updateOne_map. }
  match goal with |- context [sendMail ?m] =>
    destruct (sendMail m) as [err|] eqn:Email;
      [eexists (NextError {| message := "Failed to send OTP email";
                             statusCode := 500 |}),
               _, m, false
      |eexists (Done _), _, m, true] end;
    (split; [reflexivity|]); (split; [exact Hfound|]);
    (split; [exact Hids|]); (split; [exact Hpw|]);
    (split; [cbn [mail_email]; f_equal;
             destruct u; reflexivity|]).
  - split; [congruence | reflexivity].
  - split; [exact Email|]. eexists. split; reflexivity.
Qed.

Lemma resendShopOtp_reissues a req db e u :
  Mongo.uniqueIds Shop._id db ->
  JS.supplied (ResendOtp.r_email req) e ->
  Shop.byEmail e db = Some u ->
  Shop.isVerified u = false ->
  exists r db' m delivered,
    ResendOtp.resendShopOtp a req db = (r, db', [MailAttempt m delivered])
    /\ Shop.byEmail e db'
       = Some (ResendOtp.shopReissued (generateOtp (random a))
                 (now a + 600000) u)
    /\ Mongo.uniqueIds Shop._id db'
    /\ map Shop.password db' = map Shop.password db
    /\ mail_email m = Some (Shop.email u)
    /\ (if delivered
        then sendMail m = None
             /\ exists resp, r = Done resp /\ status resp = 200
        else sendMail m <> None
             /\ r = NextError {| message := "Failed to send OTP email";
                                 statusCode := 500 |}).
Proof.
  intros Hnd He Hu Hv.
  unfold ResendOtp.resendShopOtp.
  rewrite (supplied_falsy _ _ He). cbv iota.
  rewrite (shop_findOne_byEmail false _ _ _ _ He Hu).
  destruct (shop_loaded_paths false u) as (-> & _). rewrite Hv. cbv iota.
  cbv zeta. rewrite shop_save_unmodified by reflexivity.
  assert (Hfound :
    Shop.byEmail e
      (Shop.persist
         (Shop.set_verificationOtpExpiry (Some (otpExpiryAt (now a)))
            (Shop.set_verificationOtp (Some (generateOtp (random a)))
               (Shop.loaded false u))) db)
    = Some (ResendOtp.shopReissued (generateOtp (random a))
              (now a + 600000) u)).
  { unfold Shop.persist. simpl Shop.isNew. cbv iota.
    unfold Shop.byEmail in *.
    erewrite (updateOne_find Shop._id _ _ u db Hnd Hu); [reflexivity|].
    apply find_some in Hu. exact (proj2 Hu). }
  assert (Hids :
    Mongo.uniqueIds Shop._id
      (Shop.persist
         (Shop.set_verificationOtpExpiry (Some (otpExpiryAt (now a)))
            (Shop.set_verificationOtp (Some (generateOtp (random a)))
               (Shop.loaded false u))) db)).
  { unfold Shop.persist. simpl Shop.isNew. cbv iota.
    apply updateOne_uniqueIds; [reflexivity | exact Hnd]. }
  assert (Hpw :
    map Shop.password
      (Shop.persist
         (Shop.set_verificationOtpExpiry (Some (otpExpiryAt (now a)))
            (Shop.set_verificationOtp (Some (generateOtp (random a)))
               (Shop.loaded false u))) db)
    = map Shop.password db).
  { unfold Shop.persist. simpl Shop.isNew. cbv iota.
    now apply updateOne_map. }
  match goal with |- context [sendMail ?m] =>
    destruct (sendMail m) as [err|] eqn:Email;
      [eexists (NextError {| message := "Failed to send OTP email";
                             statusCode := 500 |}),
               _, m, false
      |eexists (Done _), _, m, true] end;
    (split; [reflexivity|]); (split; [exact Hfound|]);
    (split; [exact Hids|]); (split; [exact Hpw|]);
    (split; [cbn [mail_email]; f_equal;
             destruct u; reflexivity|]).
  - split; [congruence | reflexivity].
  - split; [exact Email|]. eexists. split; reflexivity.
Qed.

End ResendFacts.

Section ResendTheorems.
Context {bcryptLib : BcryptLib} {jwtLib : JwtLib} {services : Services}
  {config : Config}.

(** Resend-otp, for an unverified account of either variant: the new OTP
    pair is stored before the mail is attempted, so it is the stored pair
    whether the mail was delivered (reply 200) or not (reply 500, "Failed to
    send OTP email"); one mail is attempted, to the stored address; the
    account stays unverified and every other path, the password hash among
    them, is as it was. *)
Theorem resend_otp_stores_new_pair_before_mailing :
  (forall a req db e u,
      Mongo.uniqueIds User._id db ->
      JS.supplied (ResendOtp.r_email req) e ->
      User.byEmail e db = Some u ->
      User.isVerified u = false ->
      exists r db' m delivered u',
        ResendOtp.resendUserOtp a req db = (r, db', [MailAttempt m delivered])
        /\ mail_email m = Some (User.email u)
        /\ User.byEmail e db' = Some u'
        /\ User.pendingOtp u' (generateOtp (random a)) (now a + 600000)
        /\ User.sameAccount u u'
        /\ (if delivered
            then sendMail m = None
                 /\ exists resp, r = Done resp /\ status resp = 200
            else sendMail m <> None
                 /\ r = NextError {| message := "Failed to send OTP email";
                                     statusCode := 500 |}))
  /\ (forall a req db e u,
      Mongo.uniqueIds Shop._id db ->
      JS.supplied (ResendOtp.r_email req) e ->
      Shop.byEmail e db = Some u ->
      Shop.isVerified u = false ->
      exists r db' m delivered u',
        ResendOtp.resendShopOtp a req db = (r, db', [MailAttempt m delivered])
        /\ mail_email m = Some (Shop.email u)
        /\ Shop.byEmail e db' = Some u'
        /\ Shop.pendingOtp u' (generateOtp (random a)) (now a + 600000)
        /\ Shop.sameAccount u u'
        /\ (if delivered
            then sendMail m = None
                 /\ exists resp, r = Done resp /\ status resp = 200
            else sendMail m <> None
                 /\ r = NextError {| message := "Failed to send OTP email";
                                     statusCode := 500 |})).
Proof.
  split; intros a req db e u Hnd He Hu Hv.
  - destruct (resendUserOtp_reissues a req db e u Hnd He Hu Hv)
      as (r & db' & m & delivered & Hrun & Hu' & _ & _ & Hm & Hmail).
    exists r, db', m, delivered, (ResendOtp.userReissued
      (generateOtp (random a)) (now a + 600000) u).
    split; [exact Hrun|]. split; [exact Hm|]. split; [exact Hu'|].
    split; [split; [exact Hv | split; reflexivity]|].
    split; [repeat split | exact Hmail].
  - destruct (resendShopOtp_reissues a req db e u Hnd He Hu Hv)
      as (r & db' & m & delivered & Hrun & Hu' & _ & _ & Hm & Hmail).
    exists r, db', m, delivered, (ResendOtp.shopReissued
      (generateOtp (random a)) (now a + 600000) u).
    split; [exact Hrun|]. split; [exact Hm|]. split; [exact Hu'|].
    split; [split; [exact Hv | split; reflexivity]|].
    split; [repeat split | exact Hmail].
Qed.

(** Resend-otp writes nothing and mails nothing unless the e-mail supplied
    is that of a stored account that is not verified. *)
Theorem resend_otp_acts_on_unverified_accounts_only :
  (forall a req db r db' tr,
      ResendOtp.resendUserOtp a req db = (r, db', tr) ->
      db' <> db \/ tr <> [] ->
      exists e u,
        JS.supplied (ResendOtp.r_email req) e
        /\ User.byEmail e db = Some u
        /\ User.isVerified u = false)
  /\ (forall a req db r db' tr,
      ResendOtp.resendShopOtp a req db = (r, db', tr) ->
      db' <> db \/ tr <> [] ->
      exists e u,
        JS.supplied (ResendOtp.r_email req) e
        /\ Shop.byEmail e db = Some u
        /\ Shop.isVerified u = false).
Proof.
  split; intros a req db r db' tr Hrun Hacted.
  - unfold ResendOtp.resendUserOtp in Hrun.
    destruct (JS.falsy (ResendOtp.r_email req)) eqn:Hf.
    { injection Hrun as _ <- <-. destruct Hacted; congruence. }
    destruct (falsy_false_supplied _ Hf) as [e He].
    exists e. destruct (User.byEmail e db) as [u|] eqn:Hu.
    + exists u. split; [exact He|]. split; [reflexivity|].
      rewrite (user_findOne_byEmail false _ _ _ _ He Hu) in Hrun.
      destruct (user_loaded_paths false u) as (Hp & _).
      rewrite Hp in Hrun.
      destruct (User.isVerified u); [|reflexivity].
      injection Hrun as _ <- <-. destruct Hacted; congruence.
    + unfold User.findOne in Hrun. destruct He as [He _].
      rewrite He, Hu in Hrun. simpl in Hrun.
      injection Hrun as _ <- <-. destruct Hacted; congruence.
  - unfold ResendOtp.resendShopOtp in Hrun.
    destruct (JS.falsy (ResendOtp.r_email req)) eqn:Hf.
    { injection Hrun as _ <- <-. destruct Hacted; congruence. }
    destruct (falsy_false_supplied _ Hf) as [e He].
    exists e. destruct (Shop.byEmail e db) as [u|] eqn:Hu.
    + exists u. split; [exact He|]. split; [reflexivity|].
      rewrite (shop_findOne_byEmail false _ _ _ _ He Hu) in Hrun.
      destruct (shop_loaded_paths false u) as (Hp & _).
      rewrite Hp in Hrun.
      destruct (Shop.isVerified u); [|reflexivity].
      injection Hrun as _ <- <-. destruct Hacted; congruence.
    + unfold Shop.findOne in Hrun. destruct He as [He _].
      rewrite He, Hu in Hrun. simpl in Hrun.
      injection Hrun as _ <- <-. destruct Hacted; congruence.
Qed.

(** After a resend-otp, delivered or not, the code it drew activates the
    account up to ten minutes after the resend, and every other supplied
    code, the one stored before among them, is refused as invalid or
    expired. *)
Theorem resend_otp_replaces_the_valid_code :
  (forall a1 a2 req act db r db1 tr e u,
      Mongo.uniqueIds User._id db ->
      JS.supplied (ResendOtp.r_email req) e ->
      JS.supplied (UserController.a_email act) e ->
      User.byEmail e db = Some u ->
      User.isVerified u = false ->
      (0 <= random a1)%Q -> (random a1 < 1)%Q ->
      ResendOtp.resendUserOtp a1 req db = (r, db1, tr) ->
      (UserController.a_otp act = Some (generateOtp (random a1)) ->
       now a2 <= now a1 + 600000 ->
       exists resp db2,
         UserController.activation a2 act db1 = (Done resp, db2))
      /\ (forall code,
          JS.supplied (UserController.a_otp act) code ->
          code <> generateOtp (random a1) ->
          UserController.activation a2 act db1
          = (NextError {| message := "Invalid or expired OTP";
                          statusCode := 400 |}, db1)))
  /\ (forall a1 a2 req act db r db1 tr e u,
      Mongo.uniqueIds Shop._id db ->
      JS.supplied (ResendOtp.r_email req) e ->
      JS.supplied (ShopController.a_email act) e ->
      Shop.byEmail e db = Some u ->
      Shop.isVerified u = false ->
      (0 <= random a1)%Q -> (random a1 < 1)%Q ->
      ResendOtp.resendShopOtp a1 req db = (r, db1, tr) ->
      (ShopController.a_otp act = Some (generateOtp (random a1)) ->
       now a2 <= now a1 + 600000 ->
       exists resp db2,
         ShopController.activation a2 act db1 = (Done resp, db2))
      /\ (forall code,
          JS.supplied (ShopController.a_otp act) code ->
          code <> generateOtp (random a1) ->
          ShopController.activation a2 act db1
          = (NextError {| message := "Invalid or expired OTP";
                          statusCode := 400 |}, db1))).
Proof.
  split; intros a1 a2 req act db r db1 tr e u Hnd He Hae Hu Hv Hr0 Hr1 Hrun.
  - destruct (resendUserOtp_reissues a1 req db e u Hnd He Hu Hv)
      as (r' & db' & m & delivered & Hrun' & Hu' & Hnd' & _).
    rewrite Hrun in Hrun'. injection Hrun' as _ <- _.
    assert (Hpend : User.pendingOtp
                      (ResendOtp.userReissued (generateOtp (random a1))
                         (now a1 + 600000) u)
                      (generateOtp (random a1)) (now a1 + 600000))
      by (split; [exact Hv | split; reflexivity]).
    split.
    + intros Hcode Hnow.
      assert (Hne : generateOtp (random a1) <> "").
      { destruct (generateOtp_six_digits (random a1) Hr0 Hr1)
          as (_ & _ & _ & Hlen & _).
        intros Hempty. now rewrite Hempty in Hlen. }
      destruct (user_activation_succeeds a2 act db1 e
                  (generateOtp (random a1)) (now a1 + 600000) _
                  Hnd' Hae (conj Hcode Hne) Hu' Hpend Hnow)
        as (resp & db2 & Hact & _).
      now exists resp, db2.
    + intros code Hc Hdiff.
      apply (user_activation_rejects a2 act db1 e code
               (generateOtp (random a1)) (now a1 + 600000) _
               Hae Hc Hu' Hpend).
      now left.
  - destruct (resendShopOtp_reissues a1 req db e u Hnd He Hu Hv)
      as (r' & db' & m & delivered & Hrun' & Hu' & Hnd' & _).
    rewrite Hrun in Hrun'. injection Hrun' as _ <- _.
    assert (Hpend : Shop.pendingOtp
                      (ResendOtp.shopReissued (generateOtp (random a1))
                         (now a1 + 600000) u)
                      (generateOtp (random a1)) (now a1 + 600000))
      by (split; [exact Hv | split; reflexivity]).
    split.
    + intros Hcode Hnow.
      assert (Hne : generateOtp (random a1) <> "").
      { destruct (generateOtp_six_digits (random a1) Hr0 Hr1)
          as (_ & _ & _ & Hlen & _).
        intros Hempty. now rewrite Hempty in Hlen. }
      destruct (shop_activation_succeeds a2 act db1 e
                  (generateOtp (random a1)) (now a1 + 600000) _
                  Hnd' Hae (conj Hcode Hne) Hu' Hpend Hnow)
        as (resp & db2 & Hact & _).
      now exists resp, db2.
    + intros code Hc Hdiff.
      apply (shop_activation_rejects a2 act db1 e code
               (generateOtp (random a1)) (now a1 + 600000) _
               Hae Hc Hu' Hpend).
      now left.
Qed.

End ResendTheorems.

(** ** What a successful login or activation implies *)

Section Soundness.
Context {bcryptLib : BcryptLib} {jwtLib : JwtLib} {services : Services}
  {config : Config}.

Lemma user_findOne_none wp v e db :
  JS.supplied v e ->
  User.byEmail e db = None ->
  User.findOne wp v db = None.
Proof.
  intros [-> _] Hu. unfold User.findOne. now rewrite Hu.
Qed.

Lemma shop_findOne_none wp v e db :
  JS.supplied v e ->
  Shop.byEmail e db = None ->
  Shop.findOne wp v db = None.
Proof.
  intros [-> _] Hu. unfold Shop.findOne. now rewrite Hu.
Qed.

Lemma user_login_inv a req db resp :
  UserController.loginUser a req db = Done resp ->
  exists e p u h,
    JS.supplied (UserController.l_email req) e
    /\ JS.supplied (UserController.l_password req) p
    /\ User.byEmail e db = Some u
    /\ User.isVerified u = true
    /\ User.password u = Some h
    /\ bcrypt_compareString p h = true
    /\ resp
       = {| status := 201;
            cookies :=
              [("token",
                jwt_sign (User._id u) JWT_SECRET_KEY JWT_EXPIRES (now a))];
            body :=
              Session (User._id u)
                (jwt_sign (User._id u) JWT_SECRET_KEY JWT_EXPIRES (now a)) |}.
Proof.
  intros Hrun.
  destruct (JS.falsy (UserController.l_email req)) eqn:Hfe.
  { unfold UserController.loginUser in Hrun. rewrite Hfe in Hrun.
    discriminate. }
  destruct (JS.falsy (UserController.l_password req)) eqn:Hfp.
  { unfold UserController.loginUser in Hrun. rewrite Hfe, Hfp in Hrun.
    discriminate. }
  destruct (falsy_false_supplied _ Hfe) as [e He].
  destruct (falsy_false_supplied _ Hfp) as [p Hp].
  destruct (User.byEmail e db) as [u|] eqn:Hu.
  2:{ unfold UserController.loginUser in Hrun. rewrite Hfe, Hfp in Hrun.
      rewrite (user_findOne_none true _ _ _ He Hu) in Hrun. discriminate. }
  destruct (User.isVerified u) eqn:Hv.
  2:{ rewrite (user_login_unverified a req db e p u He Hp Hu Hv) in Hrun.
      discriminate. }
  destruct (User.password u) as [h|] eqn:Hh.
  - rewrite (user_login_verified a req db e p u h He Hp Hu Hv Hh) in Hrun.
    destruct (bcrypt_compareString p h) eqn:Hcmp; [|discriminate].
    injection Hrun as <-. exists e, p, u, h.
    split; [exact He|]. split; [exact Hp|].
    repeat (split; [first [assumption | reflexivity]|]). reflexivity.
  - unfold UserController.loginUser in Hrun. rewrite Hfe, Hfp in Hrun.
    rewrite (user_findOne_byEmail true _ _ _ _ He Hu) in Hrun.
    unfold User.comparePassword in Hrun. simpl in Hrun.
    rewrite Hv, Hh in Hrun. destruct Hp as [Hp _]. rewrite Hp in Hrun.
    discriminate.
Qed.

Lemma shop_login_inv a req db resp :
  ShopController.loginShop a req db = Done resp ->
  exists e p u h,
    JS.supplied (ShopController.l_email req) e
    /\ JS.supplied (ShopController.l_password req) p
    /\ Shop.byEmail e db = Some u
    /\ Shop.isVerified u = true
    /\ Shop.password u = Some h
    /\ bcrypt_compareString p h = true
    /\ resp
       = {| status := 201;
            cookies :=
              [("seller_token",
                jwt_sign (Shop._id u) JWT_SECRET_KEY JWT_EXPIRES (now a))];
            body :=
              Session (Shop._id u)
                (jwt_sign (Shop._id u) JWT_SECRET_KEY JWT_EXPIRES (now a)) |}.
Proof.
  intros Hrun.
  destruct (JS.falsy (ShopController.l_email req)) eqn:Hfe.
  { unfold ShopController.loginShop in Hrun. rewrite Hfe in Hrun.
    discriminate. }
  destruct (JS.falsy (ShopController.l_password req)) eqn:Hfp.
  { unfold ShopController.loginShop in Hrun. rewrite Hfe, Hfp in Hrun.
    discriminate. }
  destruct (falsy_false_supplied _ Hfe) as [e He].
  destruct (falsy_false_supplied _ Hfp) as [p Hp].
  destruct (Shop.byEmail e db) as [u|] eqn:Hu.
  2:{ unfold ShopController.loginShop in Hrun. rewrite Hfe, Hfp in Hrun.
      rewrite (shop_findOne_none true _ _ _ He Hu) in Hrun. discriminate. }
  destruct (Shop.isVerified u) eqn:Hv.
  2:{ rewrite (shop_login_unverified a req db e p u He Hp Hu Hv) in Hrun.
      discriminate. }
  destruct (Shop.password u) as [h|] eqn:Hh.
  - rewrite (shop_login_verified a req db e p u h He Hp Hu Hv Hh) in Hrun.
    destruct (bcrypt_compareString p h) eqn:Hcmp; [|discriminate].
    injection Hrun as <-. exists e, p, u, h.
    split; [exact He|]. split; [exact Hp|].
    repeat (split; [first [assumption | reflexivity]|]). reflexivity.
  - unfold ShopController.loginShop in Hrun. rewrite Hfe, Hfp in Hrun.
    rewrite (shop_findOne_byEmail true _ _ _ _ He Hu) in Hrun.
    unfold Shop.comparePassword in Hrun. simpl in Hrun.
    rewrite Hv, Hh in Hrun. destruct Hp as [Hp _]. rewrite Hp in Hrun.
    discriminate.
Qed.

(** A login is answered with a session only for a stored account that is
    verified and whose stored hash bcryptjs accepts the supplied password
    against; the session is for the id of that account. *)
Theorem login_session_implies_verified_and_accepted :
  (forall a req db resp,
      UserController.loginUser a req db = Done resp ->
      exists e p u h,
        JS.supplied (UserController.l_email req) e
        /\ JS.supplied (UserController.l_password req) p
        /\ User.byEmail e db = Some u
        /\ User.isVerified u = true
        /\ User.password u = Some h
        /\ bcrypt_compareString p h = true
        /\ body resp
           = Session (User._id u)
               (jwt_sign (User._id u) JWT_SECRET_KEY JWT_EXPIRES (now a)))
  /\ (forall a req db resp,
      ShopController.loginShop a req db = Done resp ->
      exists e p u h,
        JS.supplied (ShopController.l_email req) e
        /\ JS.supplied (ShopController.l_password req) p
        /\ Shop.byEmail e db = Some u
        /\ Shop.isVerified u = true
        /\ Shop.password u = Some h
        /\ bcrypt_compareString p h = true
        /\ body resp
           = Session (Shop._id u)
               (jwt_sign (Shop._id u) JWT_SECRET_KEY JWT_EXPIRES (now a))).
Proof.
  split; intros a req db resp Hrun.
  - destruct (user_login_inv a req db resp Hrun)
      as (e & p & u & h & He & Hp & Hu & Hv & Hh & Hcmp & ->).
    exists e, p, u, h. repeat (split; [assumption|]). reflexivity.
  - destruct (shop_login_inv a req db resp Hrun)
      as (e & p & u & h & He & Hp & Hu & Hv & Hh & Hcmp & ->).
    exists e, p, u, h. repeat (split; [assumption|]). reflexivity.
Qed.

End Soundness.

Lemma strict_neq_false x c :
  JS.strict_neq x (Some c) = false -> x = Some c.
Proof.
  destruct x as [s|]; simpl; [|discriminate].
  intros Hs. apply negb_false_iff, String.eqb_eq in Hs. now subst.
Qed.

Lemma lt_number_false x y :
  JS.lt_number x y = false -> forall v, x = Some v -> y <= v.
Proof.
  intros Hlt v ->. simpl in Hlt. now apply Z.ltb_ge in Hlt.
Qed.


Section ActivationSoundness.
Context {bcryptLib : BcryptLib} {jwtLib : JwtLib} {services : Services}
  {config : Config}.

(** What [activation] did when it answered: the account found by the
    e-mail was unverified, its stored code was the one supplied, its stored
    expiry, if any, was not before the clock, and the collection it leaves
    is the write of that account's three verification paths. *)
Lemma user_activation_inv a req db resp db' :
  UserController.activation a req db = (Done resp, db') ->
  exists e code u,
    JS.supplied (UserController.a_email req) e
    /\ JS.supplied (UserController.a_otp req) code
    /\ User.byEmail e db = Some u
    /\ User.isVerified u = false
    /\ User.verificationOtp u = Some code
    /\ (forall x, User.verificationOtpExpiry u = Some x -> now a <= x)
    /\ db' = Mongo.updateOne User._id (User._id u) User.activated db.
Proof.
  intros Hrun. unfold UserController.activation in Hrun.
  destruct (JS.falsy (UserController.a_email req)) eqn:Hfe;
    [discriminate|].
  destruct (JS.falsy (UserController.a_otp req)) eqn:Hfo;
    [discriminate|].
  destruct (falsy_false_supplied _ Hfe) as [e He].
  destruct (falsy_false_supplied _ Hfo) as [code Hc].
  simpl orb in Hrun. cbv iota in Hrun.
  destruct (User.byEmail e db) as [u|] eqn:Hu.
  2:{ rewrite (user_findOne_none false _ _ _ He Hu) in Hrun. discriminate. }
  rewrite (user_findOne_byEmail false _ _ _ _ He Hu) in Hrun.
  destruct (user_loaded_paths false u) as (E1 & E2 & E3 & _).
  rewrite E1, E2, E3 in Hrun.
  destruct (User.isVerified u) eqn:Hv; [discriminate|].
  destruct (JS.strict_neq (User.verificationOtp u) (UserController.a_otp req))
    eqn:Hneq; [discriminate|].
  destruct (JS.lt_number (User.verificationOtpExpiry u) (now a)) eqn:Hlt;
    [discriminate|].
  simpl orb in Hrun. cbv iota in Hrun.
  rewrite user_save_unmodified in Hrun by reflexivity.
  injection Hrun as _ <-.
  exists e, code, u. split; [exact He|]. split; [exact Hc|].
  split; [exact Hu|]. split; [exact Hv|].
  destruct Hc as [Hc _]. rewrite Hc in Hneq.
  split; [now apply strict_neq_false|].
  split; [exact (lt_number_false _ _ Hlt)|].
  unfold User.persist. simpl User.isNew. cbv iota.
  destruct u; reflexivity.
Qed.

Lemma shop_activation_inv a req db resp db' :
  ShopController.activation a req db = (Done resp, db') ->
  exists e code u,
    JS.supplied (ShopController.a_email req) e
    /\ JS.supplied (ShopController.a_otp req) code
    /\ Shop.byEmail e db = Some u
    /\ Shop.isVerified u = false
    /\ Shop.verificationOtp u = Some code
    /\ (forall x, Shop.verificationOtpExpiry u = Some x -> now a <= x)
    /\ db' = Mongo.updateOne Shop._id (Shop._id u) Shop.activated db.
Proof.
  intros Hrun. unfold ShopController.activation in Hrun.
  destruct (JS.falsy (ShopController.a_email req)) eqn:Hfe;
    [discriminate|].
  destruct (JS.falsy (ShopController.a_otp req)) eqn:Hfo;
    [discriminate|].
  destruct (falsy_false_supplied _ Hfe) as [e He].
  destruct (falsy_false_supplied _ Hfo) as [code Hc].
  simpl orb in Hrun. cbv iota in Hrun.
  destruct (Shop.byEmail e db) as [u|] eqn:Hu.
  2:{ rewrite (shop_findOne_none false _ _ _ He Hu) in Hrun. discriminate. }
  rewrite (shop_findOne_byEmail false _ _ _ _ He Hu) in Hrun.
  destruct (shop_loaded_paths false u) as (E1 & E2 & E3 & _).
  rewrite E1, E2, E3 in Hrun.
  destruct (Shop.isVerified u) eqn:Hv; [discriminate|].
  destruct (JS.strict_neq (Shop.verificationOtp u) (ShopController.a_otp req))
    eqn:Hneq; [discriminate|].
  destruct (JS.lt_number (Shop.verificationOtpExpiry u) (now a)) eqn:Hlt;
    [discriminate|].
  simpl orb in Hrun. cbv iota in Hrun.
  rewrite shop_save_unmodified in Hrun by reflexivity.
  injection Hrun as _ <-.
  exists e, code, u. split; [exact He|]. split; [exact Hc|].
  split; [exact Hu|]. split; [exact Hv|].
  destruct Hc as [Hc _]. rewrite Hc in Hneq.
  split; [now apply strict_neq_false|].
  split; [exact (lt_number_false _ _ Hlt)|].
  unfold Shop.persist. simpl Shop.isNew. cbv iota.
  destruct u; reflexivity.
Qed.

End ActivationSoundness.

Section ActivationTheorems.
Context {bcryptLib : BcryptLib} {jwtLib : JwtLib} {services : Services}
  {config : Config}.

(** An activation is answered with a session only when the account found by
    the e-mail was unverified and its stored code is the one supplied, at a
    clock not after the stored expiry (a stored code without an expiry is
    accepted at any clock); and an activation that fails, for whatever
    reason, leaves the collection as it was. *)
Theorem activation_answers_for_the_stored_code_only :
  (forall a req db resp db',
      UserController.activation a req db = (Done resp, db') ->
      exists e code u,
        JS.supplied (UserController.a_email req) e
        /\ JS.supplied (UserController.a_otp req) code
        /\ User.byEmail e db = Some u
        /\ User.isVerified u = false
        /\ User.verificationOtp u = Some code
        /\ (forall x, User.verificationOtpExpiry u = Some x -> now a <= x))
  /\ (forall a req db err db',
      UserController.activation a req db = (NextError err, db') -> db' = db)
  /\ (forall a req db resp db',
      ShopController.activation a req db = (Done resp, db') ->
      exists e code u,
        JS.supplied (ShopController.a_email req) e
        /\ JS.supplied (ShopController.a_otp req) code
        /\ Shop.byEmail e db = Some u
        /\ Shop.isVerified u = false
        /\ Shop.verificationOtp u = Some code
        /\ (forall x, Shop.verificationOtpExpiry u = Some x -> now a <= x))
  /\ (forall a req db err db',
      ShopController.activation a req db = (NextError err, db') -> db' = db).
Proof.
  split; [|split; [|split]].
  - intros a req db resp db' Hrun.
    destruct (user_activation_inv a req db resp db' Hrun)
      as (e & code & u & He & Hc & Hu & Hv & Hotp & Hexp & _).
    now exists e, code, u.
  - intros a req db err db' Hrun.
    unfold UserController.activation, UserController.sendToken in Hrun.
    repeat match type of Hrun with
           | context [if ?c then _ else _] => destruct c
           | context [match ?x with _ => _ end] => destruct x
           end;
      congruence.
  - intros a req db resp db' Hrun.
    destruct (shop_activation_inv a req db resp db' Hrun)
      as (e & code & u & He & Hc & Hu & Hv & Hotp & Hexp & _).
    now exists e, code, u.
  - intros a req db err db' Hrun.
    unfold ShopController.activation, ShopController.sendShopToken in Hrun.
    repeat match type of Hrun with
           | context [if ?c then _ else _] => destruct c
           | context [match ?x with _ => _ end] => destruct x
           end;
      congruence.
Qed.


End ActivationTheorems.

(** ** The admin routes *)

Section AdminRoutes.
Context {bcryptLib : BcryptLib} {jwtLib : JwtLib} {services : Services}
  {config : Config}.

Lemma user_findById_loaded id users d :
  User.findById id users = Some d ->
  exists u, In u users /\ User._id u = id /\ d = User.loaded false u.
Proof.
  unfold User.findById.
  destruct (find (fun u => String.eqb (User._id u) id) users) as [u|] eqn:Hf;
    [|discriminate].
  intros Hd. injection Hd as <-. apply find_some in Hf.
  exists u. split; [tauto|]. split; [|reflexivity].
  now apply String.eqb_eq.
Qed.

Lemma roleEnum_excludes_Admin role :
  In role User.roleEnum -> JS.includes ["Admin"] (Some role) = false.
Proof.
  unfold User.roleEnum. simpl. intros Hin.
  repeat (destruct Hin as [<- | Hin]; [reflexivity|]). destruct Hin.
Qed.

(** The admin routes are closed to every account the schema allows: when
    the stored roles are among the schema's five ([user], [seller],
    [instructor], [serviceProvider], [admin]), a request to a route guarded
    by [isAuthenticated, isAdmin("Admin")] ends with 401, 404 or 403
    whatever it carries, and its handler is never run; a principal of role
    [admin] is refused with the 403 that names [admin]. *)
Theorem admin_routes_refuse_every_schema_role :
  (forall (A : Type) a req users (handler : Auth.Request -> Reply A),
      Forall (fun u => In (User.role u) User.roleEnum) users ->
      exists err,
        AdminRoute.run a req users handler = NextError err
        /\ (statusCode err = 401 \/ statusCode err = 404
            \/ statusCode err = 403))
  /\ (forall (A : Type) a req users (handler : Auth.Request -> Reply A) user,
      Auth.isAuthenticated a req users = Done user ->
      User.role (User.doc user) = "admin" ->
      AdminRoute.run a req users handler
      = NextError
          {| message := "admin is not allowed to access this resource!";
             statusCode := 403 |}).
Proof.
  split.
  - intros A a req users handler Hroles. unfold AdminRoute.run.
    destruct (Auth.isAuthenticated a req users) as [e|user] eqn:Hauth.
    + exists e. split; [reflexivity|].
      unfold Auth.isAuthenticated in Hauth.
      destruct (JS.present (Auth.cookies_token req)) as [token|];
        [|injection Hauth as <-; now left].
      destruct (jwt_verify token JWT_SECRET_KEY (now a)) as [failure|id];
        [injection Hauth as <-; now left|].
      destruct (User.findById id users); [discriminate|].
      injection Hauth as <-. right. now left.
    + unfold Auth.isAuthenticated in Hauth.
      destruct (JS.present (Auth.cookies_token req)) as [token|];
        [|discriminate].
      destruct (jwt_verify token JWT_SECRET_KEY (now a)) as [failure|id];
        [discriminate|].
      destruct (User.findById id users) as [d|] eqn:Hfind; [|discriminate].
      injection Hauth as <-.
      destruct (user_findById_loaded _ _ _ Hfind) as (u & Hin & _ & ->).
      rewrite Forall_forall in Hroles. specialize (Hroles u Hin).
      cbv zeta. unfold Auth.isAdmin, AdminRoute.withUser.
      cbn [Auth.req_user option_map].
      replace (User.role (User.doc (User.loaded false u))) with (User.role u)
        by (destruct u; reflexivity).
      rewrite (roleEnum_excludes_Admin _ Hroles). cbn [negb].
      eexists. split; [reflexivity|]. right. now right.
  - intros A a req users handler user Hauth Hrole. unfold AdminRoute.run.
    rewrite Hauth. cbv zeta. unfold Auth.isAdmin, AdminRoute.withUser.
    cbn [Auth.req_user option_map]. now rewrite Hrole.
Qed.

End AdminRoutes.

(** ** Registration and the uniqueness of e-mails *)




Section RegistrationUniqueness.
Context {bcryptLib : BcryptLib} {jwtLib : JwtLib} {services : Services}
  {config : Config}.






End RegistrationUniqueness.

(** ** From a login to the middleware *)

Lemma find_by_key {A : Type} (key : A -> ObjectId) u db :
  Mongo.uniqueIds key db ->
  In u db ->
  find (fun x => String.eqb (key x) (key u)) db = Some u.
Proof.
  unfold Mongo.uniqueIds.
  induction db as [|x rest IH]; simpl; intros Hnd Hin; [contradiction|].
  inversion Hnd as [|k ks Hnotin Hrest]; subst.
  destruct Hin as [-> | Hin].
  - now rewrite String.eqb_refl.
  - destruct (String.eqb (key x) (key u)) eqn:Ek.
    + exfalso. apply String.eqb_eq in Ek. apply Hnotin. rewrite Ek.
      now apply in_map.
    + now apply IH.
Qed.

Section SessionToMiddleware.
Context {bcryptLib : BcryptLib} {jwtLib : JwtLib} {services : Services}
  {config : Config}.

(** The session a login answers with is one the middleware accepts: with a
    jsonwebtoken that verifies what it signed and a token that is not the
    empty string, a later request that carries the token of the session in
    the cookie of its variant, before the token's expiry and on the same
    collection (ids unique), passes [isAuthenticated], respectively
    [isSeller], with the account that logged in as principal, loaded
    without its password; for a shop the token in a [Bearer ] header does
    the same when no cookie is set, provided it holds no space. *)
Theorem login_session_passes_the_middleware :
  jwt_sound ->
  (forall a a' req db resp token next,
      Mongo.uniqueIds User._id db ->
      UserController.loginUser a req db = Done resp ->
      cookies resp = [("token", token)] ->
      token <> "" ->
      now a' / 1000 < now a / 1000 + JWT_EXPIRES ->
      Auth.cookies_token next = Some token ->
      exists u,
        In u db
        /\ body resp = Session (User._id u) token
        /\ Auth.isAuthenticated a' next db = Done (User.loaded false u))
  /\ (forall a a' req db resp token next,
      Mongo.uniqueIds Shop._id db ->
      ShopController.loginShop a req db = Done resp ->
      cookies resp = [("seller_token", token)] ->
      token <> "" ->
      now a' / 1000 < now a / 1000 + JWT_EXPIRES ->
      Auth.cookies_seller_token next = Some token
      \/ (JS.falsy (Auth.cookies_seller_token next) = true
          /\ Auth.headers_authorization next = Some ("Bearer " ++ token)
          /\ JS.hasChar " " token = false) ->
      exists u,
        In u db
        /\ body resp = Session (Shop._id u) token
        /\ Auth.isSeller a' next db
           = Done (Shop.set_token token (Shop.loaded false u))).
Proof.
  intros Hjwt. split.
  - intros a a' req db resp token next Hnd Hrun Hcookie Hne Hlater Hnext.
    destruct (user_login_inv a req db resp Hrun)
      as (e & p & u & h & _ & _ & Hu & _ & _ & _ & ->).
    cbn [cookies] in Hcookie. injection Hcookie as <-.
    apply find_some in Hu. destruct Hu as [Hin _].
    exists u. split; [exact Hin|]. split; [reflexivity|].
    unfold Auth.isAuthenticated. rewrite Hnext.
    cbn [JS.present]. apply String.eqb_neq in Hne. rewrite Hne.
    rewrite (Hjwt _ _ _ _ _ Hlater).
    unfold User.findById. now rewrite (find_by_key User._id u db Hnd Hin).
  - intros a a' req db resp token next Hnd Hrun Hcookie Hne Hlater Hnext.
    destruct (shop_login_inv a req db resp Hrun)
      as (e & p & u & h & _ & _ & Hu & Hv & _ & _ & ->).
    cbn [cookies] in Hcookie. injection Hcookie as <-.
    apply find_some in Hu. destruct Hu as [Hin _].
    exists u. split; [exact Hin|]. split; [reflexivity|].
    assert (Htok : JS.present (Auth.sellerToken next)
                   = Some (jwt_sign (Shop._id u) JWT_SECRET_KEY JWT_EXPIRES
                             (now a))).
    { apply String.eqb_neq in Hne.
      destruct Hnext as [Hc | (Hc & Hh & Hsp)].
      - assert (Hp : JS.present (Auth.cookies_seller_token next)
                     = Some (jwt_sign (Shop._id u) JWT_SECRET_KEY JWT_EXPIRES
                               (now a)))
          by (rewrite Hc; cbn [JS.present]; now rewrite Hne).
        now rewrite (sellerToken_cookie next _ Hp).
      - rewrite (sellerToken_bearer next _ Hc Hh Hsp). cbn [JS.present].
        now rewrite Hne. }
    unfold Auth.isSeller. rewrite Htok, (Hjwt _ _ _ _ _ Hlater).
    unfold Shop.findById. rewrite (find_by_key Shop._id u db Hnd Hin).
    cbn [option_map].
    replace (Shop.isVerified (Shop.doc (Shop.loaded false u)))
      with (Shop.isVerified u) by (destruct u; reflexivity).
    now rewrite Hv.
Qed.

End SessionToMiddleware.

(** ** The password change *)

Lemma updateOne_identity {A : Type} (key : A -> ObjectId) (f : A -> A) id db :
  (forall x, f x = x) -> Mongo.updateOne key id f db = db.
Proof.
  intros Hf. induction db as [|x rest IH]; simpl; [reflexivity|].
  destruct (String.eqb (key x) id); [now rewrite Hf | now rewrite IH].
Qed.

Lemma strict_neq_false_eq x y : JS.strict_neq x y = false -> x = y.
Proof.
  destruct x as [s|], y as [t|]; simpl; try discriminate; [|reflexivity].
  intros Hs. apply negb_false_iff, String.eqb_eq in Hs. now subst.
Qed.

Section PasswordChangeFacts.
Context {bcryptLib : BcryptLib} {jwtLib : JwtLib} {services : Services}
  {config : Config} {runtime : Runtime}.

Lemma updateUserPassword_inv a req body db resp db' :
  PasswordChange.updateUserPassword a req body db = (Done resp, db') ->
  exists principal u h old,
    Auth.req_user req = Some principal
    /\ find (fun x => String.eqb (User._id x) (User._id (User.doc principal)))
         db = Some u
    /\ User.password u = Some h
    /\ PasswordChange.oldPassword body = Some old
    /\ bcrypt_compareString old h = true
    /\ PasswordChange.newPassword body = PasswordChange.confirmPassword body
    /\ ((PasswordChange.newPassword body = Some h /\ db' = db)
        \/ exists p,
            PasswordChange.newPassword body = Some p
            /\ p <> h
            /\ passwordPathErrors (Some p) = None
            /\ db' = Mongo.updateOne User._id (User._id u)
                       (User.with_password
                          (Some (bcrypt_hashString p (salt a)))) db).
Proof.
  unfold PasswordChange.updateUserPassword. intros Hrun.
  destruct (Auth.req_user req) as [principal|]; [|discriminate].
  unfold PasswordChange.findByIdWithPassword in Hrun.
  destruct (find (fun x => String.eqb (User._id x)
                             (User._id (User.doc principal))) db)
    as [u|] eqn:Hfind; [|discriminate].
  cbn [option_map] in Hrun.
  unfold User.comparePassword, bcrypt_compare in Hrun.
  cbn [User.loaded User.doc] in Hrun.
  destruct (PasswordChange.oldPassword body) as [old|] eqn:Hold.
  2:{ destruct (User.password u); discriminate. }
  destruct (User.password u) as [h|] eqn:Hh; [|discriminate].
  destruct (bcrypt_compareString old h) eqn:Hcmp; [|discriminate].
  cbn [negb] in Hrun.
  destruct (JS.strict_neq (PasswordChange.newPassword body)
              (PasswordChange.confirmPassword body)) eqn:Hconf;
    [discriminate|].
  exists principal, u, h, old.
  do 5 (split; [first [reflexivity | assumption]|]).
  split; [now apply strict_neq_false_eq|].
  unfold PasswordChange.assignPassword, PasswordChange.optionEqb in Hrun.
  unfold User.loaded in Hrun. cbn [User.doc] in Hrun. rewrite Hh in Hrun.
  destruct (PasswordChange.newPassword body) as [p|] eqn:Hnew.
  - cbn [JS.strict_neq] in Hrun. rewrite negb_involutive in Hrun.
    destruct (String.eqb h p) eqn:Hhp.
    + apply String.eqb_eq in Hhp. subst p. left. split; [reflexivity|].
      cbn [User.isModified User.modifiedPaths existsb] in Hrun.
      rewrite user_save_unmodified in Hrun by reflexivity.
      injection Hrun as _ <-.
      unfold User.persist. cbn [User.isNew].
      apply updateOne_identity. intros x. now destruct x.
    + right. exists p. split; [reflexivity|].
      apply String.eqb_neq in Hhp. split; [congruence|].
      replace (User.isModified "password"
                 (User.set_password (Some p)
                    {| User.doc := u; User.isNew := false;
                       User.modifiedPaths := [] |}))
        with true in Hrun by reflexivity.
      destruct (passwordPathErrors (Some p)); [discriminate|].
      split; [reflexivity|].
      destruct (user_save_modified a
                  (User.set_password (Some p)
                     {| User.doc := u; User.isNew := false;
                        User.modifiedPaths := [] |}) db p
                  eq_refl eq_refl) as (d' & Hsave & _).
      rewrite Hsave in Hrun. injection Hrun as _ <-.
      unfold User.persist. cbn [User.isNew User.set_password User.markModified].
      destruct u; reflexivity.
  - exfalso. cbn [JS.strict_neq negb] in Hrun.
    replace (User.isModified "password"
               (User.set_password None
                  {| User.doc := u; User.isNew := false;
                     User.modifiedPaths := [] |}))
      with true in Hrun by reflexivity.
    destruct (passwordPathErrors None); [discriminate|].
    unfold User.save, User.preSave in Hrun. simpl in Hrun. discriminate.
Qed.

Lemma updateUserPassword_failed a req body db err db' :
  PasswordChange.updateUserPassword a req body db = (NextError err, db') ->
  db' = db.
Proof.
  unfold PasswordChange.updateUserPassword. intros Hrun.
  repeat match type of Hrun with
         | context [if ?c then _ else _] => destruct c
         | context [match ?x with _ => _ end] => destruct x
         end;
    congruence.
Qed.

End PasswordChangeFacts.

Section PasswordChangeTheorems.
Context {bcryptLib : BcryptLib} {jwtLib : JwtLib} {services : Services}
  {config : Config} {runtime : Runtime}.

(** The password change answers 200 only when bcryptjs accepted the old
    password against the stored hash of the principal and the new password
    equals its confirmation; what it then stores for that account is the
    bcrypt hash of the new password, never the password itself, except that
    a new password that is literally the stored hash leaves the collection
    as it was; and a change that fails leaves the collection as it was. *)
Theorem password_change_checks_old_and_stores_hash :
  (forall a req body db resp db',
      PasswordChange.updateUserPassword a req body db = (Done resp, db') ->
      exists principal u h old,
        Auth.req_user req = Some principal
        /\ find (fun x => String.eqb (User._id x)
                            (User._id (User.doc principal))) db = Some u
        /\ User.password u = Some h
        /\ PasswordChange.oldPassword body = Some old
        /\ bcrypt_compareString old h = true
        /\ PasswordChange.newPassword body
           = PasswordChange.confirmPassword body
        /\ ((PasswordChange.newPassword body = Some h /\ db' = db)
            \/ exists p,
                PasswordChange.newPassword body = Some p
                /\ p <> h
                /\ db' = Mongo.updateOne User._id (User._id u)
                           (User.with_password
                              (Some (bcrypt_hashString p (salt a)))) db))
  /\ (forall a req body db err db',
      PasswordChange.updateUserPassword a req body db = (NextError err, db') ->
      db' = db).
Proof.
  split.
  - intros a req body db resp db' Hrun.
    destruct (updateUserPassword_inv a req body db resp db' Hrun)
      as (principal & u & h & old & Hp & Hf & Hh & Hold & Hcmp & Hconf & Hdb).
    exists principal, u, h, old.
    do 6 (split; [assumption|]).
    destruct Hdb as [Hsame | (p & Hnew & Hne & _ & Hdb)];
      [now left | right; now exists p].
  - exact updateUserPassword_failed.
Qed.

(** After a password change that succeeded for a verified account, a login
    with the account's e-mail and the new password is answered with a
    session for that account (with a bcryptjs that accepts a password
    hashed from it; the new password non-empty and not literally the
    stored hash). *)
Theorem password_change_then_login_with_new_password :
  bcrypt_sound ->
  forall a a2 req change login db resp db' principal e u p,
    Mongo.uniqueIds User._id db ->
    Auth.req_user req = Some principal ->
    User.byEmail e db = Some u ->
    User._id (User.doc principal) = User._id u ->
    User.isVerified u = true ->
    PasswordChange.newPassword change = Some p ->
    p <> "" ->
    User.password u <> Some p ->
    PasswordChange.updateUserPassword a req change db = (Done resp, db') ->
    JS.supplied (UserController.l_email login) e ->
    UserController.l_password login = Some p ->
    exists session token,
      UserController.loginUser a2 login db' = Done session
      /\ body session = Session (User._id u) token.
Proof.
  intros Hbcrypt a a2 req change login db resp db' principal e u p
    Hnd Hreq Hu Hid Hv Hnew Hpne Hfresh Hrun Hle Hlp.
  destruct (updateUserPassword_inv a req change db resp db' Hrun)
    as (principal' & u' & h & old & Hp & Hf & Hh & _ & _ & _ & Hdb).
  assert (principal' = principal) as -> by congruence.
  assert (Hin : In u db) by (apply find_some in Hu; tauto).
  rewrite Hid, (find_by_key User._id u db Hnd Hin) in Hf.
  injection Hf as <-.
  destruct Hdb as [[Hsame _] | (p' & Hnew' & _ & _ & ->)];
    [congruence|].
  assert (p' = p) as -> by congruence.
  assert (Hu' : User.byEmail e
                  (Mongo.updateOne User._id (User._id u)
                     (User.with_password
                        (Some (bcrypt_hashString p (salt a)))) db)
                = Some (User.with_password
                          (Some (bcrypt_hashString p (salt a))) u)).
  { unfold User.byEmail in *.
    apply (updateOne_find User._id _ _ u db Hnd Hu).
    apply find_some in Hu. exact (proj2 Hu). }
  rewrite (user_login_verified a2 login _ e p _
             (bcrypt_hashString p (salt a)) Hle (conj Hlp Hpne) Hu' Hv
             eq_refl).
  rewrite Hbcrypt. eexists _, _. split; reflexivity.
Qed.

End PasswordChangeTheorems.

(** ** Deleting a product *)





Section ProductDelete.
Context {bcryptLib : BcryptLib} {jwtLib : JwtLib} {services : Services}
  {config : Config}.


End ProductDelete.

(** ** The pieces of a Bearer header *)

Lemma split_first_piece sep t rest :
  JS.hasChar sep t = false ->
  JS.split sep (t ++ String sep rest) = t :: JS.split sep rest.
Proof.
  induction t as [|c t IH]; simpl.
  - intros _. now rewrite Ascii.eqb_refl.
  - intros Hno. apply orb_false_iff in Hno. destruct Hno as [Hc Ht].
    now rewrite Hc, (IH Ht).
Qed.

Section BearerHeader.
Context {bcryptLib : BcryptLib} {jwtLib : JwtLib} {services : Services}
  {config : Config}.

(** With no [seller_token] cookie, [isSeller] takes from an authorization
    header that starts with [Bearer ] the piece between that space and the
    next one, whatever follows; when that piece is empty (the header is
    [Bearer ] alone, or two spaces follow the scheme) there is no token and
    the request fails with 401 before any verification. *)
Theorem isSeller_bearer_header_pieces :
  (forall req t rest,
      JS.falsy (Auth.cookies_seller_token req) = true ->
      Auth.headers_authorization req
      = Some ("Bearer " ++ t ++ String " " rest) ->
      JS.hasChar " " t = false ->
      Auth.sellerToken req = Some t)
  /\ (forall a req shops h,
      JS.falsy (Auth.cookies_seller_token req) = true ->
      Auth.headers_authorization req = Some h ->
      h = "Bearer " \/ (exists rest, h = "Bearer  " ++ rest) ->
      Auth.isSeller a req shops
      = NextError {| message := "Please login as a seller to continue";
                     statusCode := 401 |}).
Proof.
  split.
  - intros req t rest Hc Hh Hno. unfold Auth.sellerToken. rewrite Hh, Hc.
    simpl. rewrite (split_first_piece _ _ _ Hno).
    now replace (JS.startsWith "" (t ++ String " " rest)) with true
      by (now destruct t).
  - intros a req shops h Hc Hh Hshape.
    assert (Htok : JS.present (Auth.sellerToken req) = None).
    { unfold Auth.sellerToken. rewrite Hh, Hc.
      destruct Hshape as [-> | (rest & ->)]; [reflexivity|].
      simpl. now destruct rest. }
    unfold Auth.isSeller. now rewrite Htok.
Qed.

End BearerHeader.

(** ** The further handlers run on the sample data *)

Section MoreRuns.

#[local] Existing Instance Sample.bcrypt.
#[local] Existing Instance Sample.jwt.
#[local] Existing Instance Sample.services.
#[local] Existing Instance Sample.config.
#[local] Existing Instance SampleMore.runtime.

(** A resend for [alice] that is delivered, and one for [corner] while the
    transport is down. *)
Lemma resend_otp_stores_new_pair_before_mailing_witness :
  (exists r db' m delivered u',
      ResendOtp.resendUserOtp Sample.ambient SampleMore.resendAlice
        [Sample.alice] = (r, db', [MailAttempt m delivered])
      /\ User.byEmail "alice@example.com" db' = Some u'
      /\ User.pendingOtp u' "550000" 1600000)
  /\ (exists r db' m delivered u',
      ResendOtp.resendShopOtp (services := Sample.servicesDown)
        Sample.ambient SampleMore.resendCorner [Sample.corner]
      = (r, db', [MailAttempt m delivered])
      /\ Shop.byEmail "corner@example.com" db' = Some u'
      /\ Shop.pendingOtp u' "550000" 1600000).
Proof.
  split.
  - destruct (proj1 resend_otp_stores_new_pair_before_mailing
                Sample.ambient SampleMore.resendAlice [Sample.alice]
                "alice@example.com" Sample.alice)
      as (r & db' & m & delivered & u' & Hrun & _ & Hu' & Hp & _);
      try sample_fact.
    exists r, db', m, delivered, u'. split; [exact Hrun|]. split; assumption.
  - destruct (proj2 (resend_otp_stores_new_pair_before_mailing
                       (services := Sample.servicesDown))
                Sample.ambient SampleMore.resendCorner [Sample.corner]
                "corner@example.com" Sample.corner)
      as (r & db' & m & delivered & u' & Hrun & _ & Hu' & Hp & _);
      try sample_fact.
    exists r, db', m, delivered, u'. split; [exact Hrun|]. split; assumption.
Defined.

(** The resend for [alice] mailed, so [alice] is stored and unverified. *)
Lemma resend_otp_acts_on_unverified_accounts_only_witness :
  exists e u,
    JS.supplied (ResendOtp.r_email SampleMore.resendAlice) e
    /\ User.byEmail e [Sample.alice] = Some u
    /\ User.isVerified u = false.
Proof.
  eapply (proj1 resend_otp_acts_on_unverified_accounts_only
            Sample.ambient SampleMore.resendAlice [Sample.alice]).
  - reflexivity.
  - right. discriminate.
Defined.

(** After the resend for [alice], the new code activates her account. *)
Lemma resend_otp_replaces_the_valid_code_witness :
  exists resp db2,
    UserController.activation Sample.ambient SampleMore.aliceNewCode
      (snd (fst (ResendOtp.resendUserOtp Sample.ambient
                   SampleMore.resendAlice [Sample.alice])))
    = (Done resp, db2).
Proof.
  eapply (proj1 resend_otp_replaces_the_valid_code
            Sample.ambient Sample.ambient SampleMore.resendAlice
            SampleMore.aliceNewCode [Sample.alice] _ _ _
            "alice@example.com" Sample.alice); try sample_fact.
Defined.

(** The login of verified [alice]. *)
Lemma login_session_implies_verified_and_accepted_witness :
  exists e p u h,
    JS.supplied (UserController.l_email Sample.aliceLogin) e
    /\ JS.supplied (UserController.l_password Sample.aliceLogin) p
    /\ User.byEmail e [Sample.aliceVerified] = Some u
    /\ User.isVerified u = true
    /\ User.password u = Some h
    /\ bcrypt_compareString p h = true.
Proof.
  edestruct (proj1 login_session_implies_verified_and_accepted
               Sample.ambient Sample.aliceLogin [Sample.aliceVerified])
    as (e & p & u & h & H1 & H2 & H3 & H4 & H5 & H6 & _); [reflexivity|].
  exists e, p, u, h. repeat (split; [assumption|]). assumption.
Defined.

(** The activation of [alice]. *)
Lemma activation_answers_for_the_stored_code_only_witness :
  exists e code u,
    JS.supplied (UserController.a_email Sample.aliceActivation) e
    /\ JS.supplied (UserController.a_otp Sample.aliceActivation) code
    /\ User.byEmail e [Sample.alice] = Some u
    /\ User.verificationOtp u = Some code.
Proof.
  edestruct (proj1 activation_answers_for_the_stored_code_only
               Sample.ambient Sample.aliceActivation [Sample.alice])
    as (e & code & u & H1 & H2 & H3 & _ & H5 & _); [reflexivity|].
  exists e, code, u. repeat (split; [assumption|]). assumption.
Defined.


(** [ada], of role [admin], at an admin route. *)
Lemma admin_routes_refuse_every_schema_role_witness :
  exists err,
    AdminRoute.run Sample.ambient SampleMore.adaRequest [SampleMore.ada]
      (fun _ => Done tt)
    = NextError err
    /\ (statusCode err = 401 \/ statusCode err = 404 \/ statusCode err = 403).
Proof.
  apply (proj1 admin_routes_refuse_every_schema_role unit Sample.ambient
           SampleMore.adaRequest [SampleMore.ada] (fun _ => Done tt)).
  constructor; [|constructor]. simpl. tauto.
Defined.


(** The session of [alice] at [isAuthenticated]. *)
Lemma login_session_passes_the_middleware_witness :
  exists u,
    In u [Sample.aliceVerified]
    /\ Auth.isAuthenticated Sample.ambient Sample.aliceRequest
         [Sample.aliceVerified] = Done (User.loaded false u).
Proof.
  destruct (proj1 (login_session_passes_the_middleware sample_jwt_sound)
              Sample.ambient Sample.ambient Sample.aliceLogin
              [Sample.aliceVerified]
              {| status := 201; cookies := [("token", "k.u1")];
                 body := Session "u1" "k.u1" |}
              "k.u1" Sample.aliceRequest)
    as (u & Hin & _ & Hauth); try sample_fact.
  exists u. split; assumption.
Defined.

(** [alice] changes her password. *)
Lemma password_change_checks_old_and_stores_hash_witness :
  exists h old,
    PasswordChange.oldPassword SampleMore.changeAlice = Some old
    /\ bcrypt_compareString old h = true.
Proof.
  edestruct (proj1 password_change_checks_old_and_stores_hash
               Sample.ambient Sample.aliceRequest SampleMore.changeAlice
               [Sample.aliceVerified])
    as (principal & u & h & old & _ & _ & _ & Hold & Hcmp & _);
    [reflexivity|].
  exists h, old. split; assumption.
Defined.

(** [alice] logs in with the password she changed to. *)
Lemma password_change_then_login_with_new_password_witness :
  exists session token,
    UserController.loginUser Sample.ambient SampleMore.aliceNewLogin
      [User.with_password (Some "$2a$10$secret2") Sample.aliceVerified]
    = Done session
    /\ body session = Session "u1" token.
Proof.
  apply (password_change_then_login_with_new_password sample_bcrypt_sound
           Sample.ambient Sample.ambient Sample.aliceRequest
           SampleMore.changeAlice SampleMore.aliceNewLogin
           [Sample.aliceVerified]
           {| status := 200; cookies := [];
              body := Message "Password updated successfully!" |}
           [User.with_password (Some "$2a$10$secret2") Sample.aliceVerified]
           (User.loaded false Sample.aliceVerified)
           "alice@example.com" Sample.aliceVerified "secret2");
    sample_fact.
Defined.


(** A Bearer header with a trailing piece. *)
Lemma isSeller_bearer_header_pieces_witness :
  Auth.sellerToken SampleMore.longBearerRequest = Some "k.s1".
Proof.
  apply (proj1 isSeller_bearer_header_pieces SampleMore.longBearerRequest
           "k.s1" "trailing"); reflexivity.
Defined.

End MoreRuns.
